(** * ExpenseFlow analytics dashboard: controller, data access, renderers, utils

    A shallow embedding of the four browser scripts of the analytics page

      - the utils module, [window.AnalyticsUtils]          (module [AnalyticsUtils])
      - the API module, [window.AnalyticsAPI]              (module [AnalyticsAPI])
      - the renderers module, [window.AnalyticsRenderers]  (module [AnalyticsRenderers])
      - the orchestrator, class [AnalyticsDashboard]       (module [AnalyticsDashboard])

    together with [debounce] of the utils module (module [Debounce]), the
    loading of the page (module [Bootstrap]) and, of the server
    configuration, the origin check and the logging wrapper (module
    [ServerConfig]), followed by the properties that are checked against
    them.

    Conventions of the embedding.
      - JavaScript values are the inductive [JsVal]; numbers are IEEE 754
        doubles, with their rounding, their infinities, NaN and the two zeros.
      - A payload is what [response.json()] gave: data without functions.
      - A function that can throw returns a [Completion].
      - Code that mutates state is written in the state-and-exception monad
        [ST S]: over the content of one DOM element for a renderer body, over
        the whole [World] for the data access layer and the controller.
      - An [async] function is cut at its [await] on the network: the part
        before it runs when the task is launched, the part after it when the
        response arrives (event [Settle]).  Tasks that were launched and have
        not settled yet are the [pending] list of the [World]; they may settle
        in any order. *)

From Stdlib Require Import PrimFloat FloatClass.
From Stdlib Require Import DecimalString.
From stdpp Require Import gmap strings list fin_maps.

Set Default Proof Using "Type".
Set Warnings "-register-all".

(** ** JavaScript values *)

Module Js.

(** Numbers are doubles.  [Num] marks a numeric literal. *)
Definition JsNum : Type := float.

Definition NaN : JsNum := nan.

Definition Num (f : float) : JsNum := f.
Arguments Num f%_float.

(** Values.  [JHost] is a function or object supplied by the runtime (for
    instance [Object.prototype.toString]); it is opaque and truthy. *)
Inductive JsVal : Type :=
| JUndefined
| JNull
| JBool (b : bool)
| JNumber (n : JsNum)
| JString (s : string)
| JArray (elems : list JsVal)
| JObject (props : list (string * JsVal))
| JHost (name : string).

(** Exceptions: [new Error(message)] of the program, and the TypeError the
    runtime raises on a property read of null or undefined or on a call of
    something that is not a function.  [HostError] is an exception raised by
    the network layer, the JSON parser or the chart library. *)
Inductive JsError : Type :=
| Error (message : string)
| TypeError (message : string)
| HostError (message : string).

Inductive Completion (A : Type) : Type :=
| Normal (a : A)
| Throw (e : JsError).
Arguments Normal {A} a.
Arguments Throw {A} e.

Definition bindC {A B} (c : Completion A) (k : A -> Completion B) : Completion B :=
  match c with
  | Normal a => k a
  | Throw e => Throw e
  end.

Declare Scope js_scope.
Delimit Scope js_scope with js.
Notation "'do' x <- c ; k" := (bindC c (fun x => k))
  (at level 10, x name, c at level 100, k at level 200) : js_scope.

(** [l.map(f)] on a list of elements, [f] possibly throwing: stops at the
    first element on which [f] throws. *)
Fixpoint mapC {A B} (f : A -> Completion B) (l : list A) : Completion (list B) :=
  match l with
  | [] => Normal []
  | x :: l' =>
      bindC (f x) (fun y => bindC (mapC f l') (fun ys => Normal (y :: ys)))
  end.

(** ToBoolean. *)
Definition ToBoolean (v : JsVal) : bool :=
  match v with
  | JUndefined | JNull => false
  | JBool b => b
  | JNumber n => negb (is_nan n || is_zero n)
  | JString s => negb (String.eqb s "")
  | JArray _ | JObject _ | JHost _ => true
  end.

(** [a || b] returns one of its operands. *)
Definition js_or (a b : JsVal) : JsVal := if ToBoolean a then a else b.

(** The names every plain object inherits from [Object.prototype]. *)
Definition ObjectPrototype_names : list string :=
  [ "constructor"; "__proto__"; "hasOwnProperty"; "isPrototypeOf";
    "propertyIsEnumerable"; "toLocaleString"; "toString"; "valueOf";
    "__defineGetter__"; "__defineSetter__"; "__lookupGetter__";
    "__lookupSetter__" ].

Definition ObjectPrototype (key : string) : JsVal :=
  if bool_decide (key ∈ ObjectPrototype_names)
  then JHost ("Object.prototype." +:+ key)
  else JUndefined.

Fixpoint assoc (key : string) (props : list (string * JsVal)) : option JsVal :=
  match props with
  | [] => None
  | (k, v) :: props' => if String.eqb k key then Some v else assoc key props'
  end.

(** [o[key]] on a plain object: an own property, else the inherited one,
    else undefined. *)
Definition GetProp (props : list (string * JsVal)) (key : string) : JsVal :=
  match assoc key props with
  | Some v => v
  | None => ObjectPrototype key
  end.

(** [v.key] for the property names the renderers and the data access layer
    read from a payload ([data], [month], [amount], [categories], [category],
    [total], [grandTotal], [title], ...).  It throws on null and undefined.
    None of these names is a property of an array, a string, a number, a
    boolean or a function, so the read gives undefined on those. *)
Definition Get (v : JsVal) (key : string) : Completion JsVal :=
  match v with
  | JUndefined => Throw (TypeError ("Cannot read properties of undefined (reading " +:+ key +:+ ")"))
  | JNull => Throw (TypeError ("Cannot read properties of null (reading " +:+ key +:+ ")"))
  | JObject props => Normal (GetProp props key)
  | _ => Normal JUndefined
  end.

(** [Array.isArray(v)], and [v.length] of an array. *)
Definition Array_isArray (v : JsVal) : bool :=
  match v with
  | JArray _ => true
  | _ => false
  end.

Definition Array_length (v : JsVal) : nat :=
  match v with
  | JArray elems => length elems
  | _ => 0
  end.

Definition index_keys (n : nat) : list string :=
  map (fun i => NilZero.string_of_uint (Nat.to_uint i)) (seq 0 n).

(** [Object.keys(v)] for a value that is neither null nor undefined: the own
    enumerable string keys.  A boolean, a number and a runtime function have
    none; a string and an array have their indices. *)
Definition Object_keys (v : JsVal) : list string :=
  match v with
  | JObject props => map fst props
  | JArray elems => index_keys (length elems)
  | JString s => index_keys (String.length s)
  | _ => []
  end.

(** [v.map(f)]: only an array has a [map] method (on anything else the
    property is missing or, on an object with an own key [map], holds JSON
    data, and the call raises a TypeError). *)
Definition Array_map {B} (f : JsVal -> Completion B) (v : JsVal) : Completion (list B) :=
  match v with
  | JArray elems => mapC f elems
  | JUndefined | JNull => Throw (TypeError "Cannot read properties of null or undefined (reading map)")
  | _ => Throw (TypeError "map is not a function")
  end.

(** Conversion to a primitive (ToPrimitive), which ToString, ToNumber and
    ToPropertyKey start with.  On a plain object it calls the [toString] and
    [valueOf] the object has.  The inherited ones are functions, and the
    inherited [toString] gives ['[object Object]'], the inherited [valueOf]
    the object itself.  An own property of a payload is data: it is not
    callable and is skipped.  So an object with an own key [toString] that is
    data has nothing left that returns a primitive, and the conversion raises
    a TypeError.  An own [toString] or [valueOf] that is a function of the
    runtime is called and returns a primitive. *)
Definition own_data (key : string) (props : list (string * JsVal)) : bool :=
  match assoc key props with
  | Some (JHost _) | None => false
  | Some _ => true
  end.

Definition own_function (key : string) (props : list (string * JsVal)) : bool :=
  match assoc key props with
  | Some (JHost _) => true
  | _ => false
  end.

(** Whether ToPrimitive returns.  An array is joined: null and undefined
    elements give the empty text, every other element is converted. *)
Fixpoint convertible (v : JsVal) : bool :=
  match v with
  | JObject props => negb (own_data "toString" props) || own_function "valueOf" props
  | JArray elems => forallb convertible elems
  | _ => true
  end.

Definition not_convertible : JsError :=
  TypeError "Cannot convert object to primitive value".

(** [`${v}`]: the conversion to text of an interpolated value.  The result
    stands for that text. *)
Definition interpolate (v : JsVal) : Completion JsVal :=
  if convertible v then Normal v else Throw not_convertible.

(** ToNumber.  The number read from a text (that of a string, of a joined
    array or of what a function of the runtime returned) is the runtime's,
    passed as [parse]; the text of a plain object is not a number. *)
Definition ToNumber (parse : JsVal -> JsNum) (v : JsVal) : Completion JsNum :=
  match v with
  | JUndefined => Normal NaN
  | JNull => Normal (Num 0)
  | JBool true => Normal (Num 1)
  | JBool false => Normal (Num 0)
  | JNumber n => Normal n
  | JObject props =>
      if negb (convertible v) then Throw not_convertible
      else if own_function "toString" props || own_function "valueOf" props
      then Normal (parse v)
      else Normal NaN
  | JArray _ => if convertible v then Normal (parse v) else Throw not_convertible
  | JString _ | JHost _ => Normal (parse v)
  end.

(** The key of [o[v]], for a value [v] whose conversion returns: a string is
    its own key; the text of a number, of an array or of an object is the
    runtime's, passed as [text]. *)
Definition ToPropertyKey (text : JsVal -> string) (v : JsVal) : string :=
  match v with
  | JString s => s
  | JUndefined => "undefined"
  | JNull => "null"
  | JBool true => "true"
  | JBool false => "false"
  | _ => text v
  end.

(** [Math.min(a, b)]: NaN when either is NaN, else the smaller, the negative
    zero being smaller than the positive one. *)
Definition Math_min (a b : JsNum) : JsNum :=
  if is_nan a || is_nan b then NaN
  else if (a <? b)%float then a
  else if is_zero b
       then match classify a with
            | NZero => a
            | _ => b
            end
       else b.

(** [str.charAt(0)] and [str.slice(1)], on a string held in UTF-8 as the
    scripts themselves are.  The first UTF-16 unit of a string is its first
    character when that takes one to three bytes of UTF-8.  A
    character of four bytes is a surrogate pair; its leading half has no
    upper case and no UTF-8 form of its own, so for such a string [charAt0]
    is left empty and [slice1] is the whole string, which gives [toUpperCase]
    nothing to change and the same concatenation. *)
Definition utf8_width (c : Ascii.ascii) : nat :=
  let n := Ascii.nat_of_ascii c in
  if (n <? 192)%nat then 1
  else if (n <? 224)%nat then 2
  else if (n <? 240)%nat then 3
  else 4.

Definition charAt0 (s : string) : string :=
  match s with
  | EmptyString => EmptyString
  | String c _ =>
      if (utf8_width c =? 4)%nat then EmptyString
      else String.substring 0 (utf8_width c) s
  end.

Definition slice1 (s : string) : string :=
  match s with
  | EmptyString => EmptyString
  | String c _ =>
      if (utf8_width c =? 4)%nat then s
      else String.substring (utf8_width c) (String.length s - utf8_width c) s
  end.

(** The upper case of an ASCII character. *)
Definition upper (c : Ascii.ascii) : Ascii.ascii :=
  let n := Ascii.nat_of_ascii c in
  if (97 <=? n)%nat && (n <=? 122)%nat then Ascii.ascii_of_nat (n - 32) else c.

(** [toUpperCase] of a string of at most one character.  Outside ASCII the
    upper case is that of the Unicode tables of the runtime, passed as
    [unicode]; it can be longer than the character. *)
Definition toUpperCase (unicode : string -> string) (s : string) : string :=
  match s with
  | EmptyString => EmptyString
  | String c EmptyString =>
      if (Ascii.nat_of_ascii c <? 128)%nat then String (upper c) EmptyString
      else unicode s
  | _ => unicode s
  end.

(** The state-and-exception monad. *)
Definition ST (S A : Type) : Type := S -> Completion A * S.

Definition ret {S A} (a : A) : ST S A := fun s => (Normal a, s).
Definition throw {S A} (e : JsError) : ST S A := fun s => (Throw e, s).
Definition bind {S A B} (m : ST S A) (k : A -> ST S B) : ST S B :=
  fun s =>
    match m s with
    | (Normal a, s') => k a s'
    | (Throw e, s') => (Throw e, s')
    end.
Definition liftC {S A} (c : Completion A) : ST S A := fun s => (c, s).
Definition modify {S} (f : S -> S) : ST S unit := fun s => (Normal tt, f s).
Definition gets {S A} (f : S -> A) : ST S A := fun s => (Normal (f s), s).

(** [try { m } catch (error) { h error }] *)
Definition try_catch {S A} (m : ST S A) (h : JsError -> ST S A) : ST S A :=
  fun s =>
    match m s with
    | (Normal a, s') => (Normal a, s')
    | (Throw e, s') => h e s'
    end.

Declare Scope st_scope.
Delimit Scope st_scope with st.
Notation "'do' x <- m ; k" := (bind m (fun x => k))
  (at level 10, x name, m at level 100, k at level 200) : st_scope.
Notation "'do' ' m ; k" := (bind m (fun _ => k))
  (at level 10, m at level 100, k at level 200) : st_scope.

End Js.

Import Js.

(** ** The utils module (analytics-utils.js) *)

Module AnalyticsUtils.

(** [capitalizeFirst(str)]:
    [str.charAt(0).toUpperCase() + str.slice(1)].  Only a string has a
    [charAt] method. *)
Definition capitalizeFirst (unicode : string -> string) (str : JsVal)
  : Completion string :=
  match str with
  | JString s => Normal (toUpperCase unicode (charAt0 s) +:+ slice1 s)
  | JUndefined => Throw (TypeError "Cannot read properties of undefined (reading charAt)")
  | JNull => Throw (TypeError "Cannot read properties of null (reading charAt)")
  | _ => Throw (TypeError "str.charAt is not a function")
  end.

(** [formatAnalyticsCurrency(value)].  Where the page has
    [window.i18n.formatCurrency] ([i18n]), that formats the value; the
    functions of [window.i18n] are taken to return.  Otherwise the amount is
    [Number(value || 0)].  The result stands for the text of the amount. *)
Definition formatAnalyticsCurrency (i18n : bool) (parse : JsVal -> JsNum) (value : JsVal)
  : Completion JsVal :=
  if i18n then Normal value
  else (do amount <- ToNumber parse (js_or value (JNumber (Num 0)));
        Normal value)%js.

(** [formatPercentage(value)]: [`${Number(value || 0).toFixed(1)}%`].  The
    result stands for that text. *)
Definition formatPercentage (parse : JsVal -> JsNum) (value : JsVal) : Completion JsVal :=
  (do amount <- ToNumber parse (js_or value (JNumber (Num 0)));
   Normal value)%js.

(** [getCategoryColors()] *)
Definition getCategoryColors : list (string * JsVal) :=
  [ ("food", JString "#FF6B6B");
    ("transport", JString "#4ECDC4");
    ("entertainment", JString "#96CEB4");
    ("utilities", JString "#FECA57");
    ("healthcare", JString "#FF9FF3");
    ("shopping", JString "#45B7D1");
    ("other", JString "#A55EEA") ].

(** [getCategoryIcons()] *)
Definition getCategoryIcons : list (string * JsVal) :=
  [ ("food", JString "🍽️");
    ("transport", JString "🚗");
    ("entertainment", JString "🎬");
    ("utilities", JString "💡");
    ("healthcare", JString "🏥");
    ("shopping", JString "🛒");
    ("other", JString "📋") ].

(** [isValidData(data)]:
    [data && (Array.isArray(data) ? data.length > 0
                                  : Object.keys(data).length > 0)].
    The result of [&&] is its left operand when that is falsy, and only
    otherwise is the right operand evaluated. *)
Definition isValidData (data : JsVal) : JsVal :=
  if ToBoolean data
  then JBool (if Array_isArray data
              then (0 <? Array_length data)%nat
              else (0 <? length (Object_keys data))%nat)
  else data.

End AnalyticsUtils.

(** ** The page: DOM regions, network, module state *)

Module Browser.

(** What a chart is drawn from: the [data] part of the configuration handed
    to [new Chart(canvas, config)]. *)
Inductive ChartConfig : Type :=
| LineChart (labels : list JsVal) (data : list JsVal)
| PieChart (labels : list (JsVal * string)) (data : list JsVal)
           (backgroundColor borderColor : list JsVal).

Record InsightItem : Type := {
  insight_title : JsVal;
  insight_description : JsVal;
  insight_suggestion : option JsVal
}.

Record PredictionItem : Type := {
  prediction_category : string;
  prediction_confidence : JsVal;
  prediction_predictedAmount : JsVal
}.

(** The children of an output region.  A field of type [JsVal] is the value
    whose text is at that place of the markup: an interpolated value, for an
    amount the argument of [formatAnalyticsCurrency], for a confidence that
    of [formatPercentage]. *)
Inductive Node : Type :=
| LoadingSpinner
| ErrorState (message : string)
| NoData (message : string)
| Canvas (id : string) (chart : option ChartConfig)
| CategoryChartHeader (grandTotal : JsVal)
| InsightsWidget (items : list InsightItem)
| PredictionsWidget (items : list PredictionItem)
| ForecastWidget (threeMonthProjection sixMonthProjection savingsPotential : JsVal)
| VelocityWidget (dayOfMonth currentSpent dailyAverage projectedMonthEnd : JsVal)
                 (progressPercent : JsNum) (daysRemaining : JsVal).

(** [innerHTML] of an element; [''] is the empty list. *)
Definition Html : Type := list Node.

(** What the runtime, the page and the chart library decide: the number
    and the text of a value that is not a primitive; the upper case of a
    character outside ASCII; what [parseInt] reads; whether the page has
    [window.i18n.formatCurrency]; whether [new Chart] throws. *)
Record Host : Type := {
  host_to_number : JsVal -> JsNum;
  host_to_string : JsVal -> string;
  host_toUpperCase : string -> string;
  host_parseInt : string -> option Z;
  host_i18n : bool;
  host_chart : ChartConfig -> option JsError
}.

(** Operations on the element a renderer holds. *)
Definition set_innerHTML (h : Html) : ST Html unit := modify (fun _ => h).
Definition appendChild (n : Node) : ST Html unit := modify (fun h => h ++ [n]).

Definition draw (id : string) (cfg : ChartConfig) (n : Node) : Node :=
  match n with
  | Canvas id' chart => if String.eqb id' id then Canvas id' (Some cfg) else n
  | _ => n
  end.

(** [new Chart(canvas, config)] on the canvas with the given id. *)
Definition Chart_new (host : Host) (id : string) (cfg : ChartConfig) : ST Html unit :=
  fun h =>
    match host_chart host cfg with
    | Some e => (Throw e, h)
    | None => (Normal tt, map (draw id cfg) h)
    end.

(** [const container = document.getElementById(id);
     if (!container) return;  body].
    The document holds, by id, the elements the page is served with; what a
    renderer creates inside its region (a header, a canvas) is part of the
    content of that region and is never looked up by id. *)
Definition with_container (id : string) (body : ST Html unit)
  : ST (gmap string Html) unit :=
  fun d =>
    match d !! id with
    | None => (Normal tt, d)
    | Some h => let '(c, h') := body h in (c, <[id := h']> d)
    end.

(** The six analytical views. *)
Inductive View : Type :=
| Trends | CategoryBreakdown | Insights | Predictions | Velocity | Forecast.

#[global] Instance View_eq_dec : EqDecision View.
Proof. solve_decision. Defined.

Definition all_views : list View :=
  [Trends; CategoryBreakdown; Insights; Predictions; Velocity; Forecast].

(** The output region of a view. *)
Definition region (v : View) : string :=
  match v with
  | Trends => "trends-chart"
  | CategoryBreakdown => "category-chart"
  | Insights => "insights-widget"
  | Predictions => "predictions-widget"
  | Velocity => "velocity-widget"
  | Forecast => "forecast-widget"
  end.

(** [analyticsData] of the API module. *)
Record Snapshot : Type := {
  trends : JsVal;
  categoryBreakdown : JsVal;
  insights : JsVal;
  predictions : JsVal;
  velocity : JsVal;
  forecast : JsVal
}.

Definition slot (v : View) (s : Snapshot) : JsVal :=
  match v with
  | Trends => trends s
  | CategoryBreakdown => categoryBreakdown s
  | Insights => insights s
  | Predictions => predictions s
  | Velocity => velocity s
  | Forecast => forecast s
  end.

Record Request : Type := {
  req_url : string;
  req_headers : list (string * string)
}.

Record HttpResponse : Type := {
  ok : bool;
  status : N;
  statusText : string;
  json : Completion JsVal
}.

(** What comes back for a request: the promise of [fetch] rejects, or it
    resolves to a response. *)
Inductive FetchResult : Type :=
| NetworkFailure (e : JsError)
| Respond (response : HttpResponse).

(** A launched fetch+render task.  [Awaiting]: its request is on the wire.
    [Rejected e]: its fetch threw [e] before any request was made. *)
Inductive TaskState : Type :=
| Awaiting
| Rejected (e : JsError).

Record Task : Type := {
  task_view : View;
  task_batch : bool;          (* one of the promises of a full refresh *)
  task_endpoint : string;
  task_state : TaskState
}.

Record World : Type := {
  authToken : option string;                 (* localStorage.getItem('authToken') *)
  document : gmap string Html;               (* the elements of the page, by id *)
  network : list Request;                    (* requests made, oldest first *)
  console : list (string * JsError);         (* console.error, oldest first *)
  analyticsData : Snapshot;
  isLoading : bool;
  currentPeriod : string;
  currentMonths : option Z;                  (* None is NaN *)
  pending : list Task
}.

Definition set_document (f : gmap string Html -> gmap string Html) (w : World) : World :=
  {| authToken := authToken w; document := f (document w); network := network w;
     console := console w; analyticsData := analyticsData w; isLoading := isLoading w;
     currentPeriod := currentPeriod w; currentMonths := currentMonths w;
     pending := pending w |}.

Definition set_network (f : list Request -> list Request) (w : World) : World :=
  {| authToken := authToken w; document := document w; network := f (network w);
     console := console w; analyticsData := analyticsData w; isLoading := isLoading w;
     currentPeriod := currentPeriod w; currentMonths := currentMonths w;
     pending := pending w |}.

Definition set_console (f : list (string * JsError) -> list (string * JsError))
  (w : World) : World :=
  {| authToken := authToken w; document := document w; network := network w;
     console := f (console w); analyticsData := analyticsData w; isLoading := isLoading w;
     currentPeriod := currentPeriod w; currentMonths := currentMonths w;
     pending := pending w |}.

Definition set_analyticsData (f : Snapshot -> Snapshot) (w : World) : World :=
  {| authToken := authToken w; document := document w; network := network w;
     console := console w; analyticsData := f (analyticsData w); isLoading := isLoading w;
     currentPeriod := currentPeriod w; currentMonths := currentMonths w;
     pending := pending w |}.

Definition set_isLoading (b : bool) (w : World) : World :=
  {| authToken := authToken w; document := document w; network := network w;
     console := console w; analyticsData := analyticsData w; isLoading := b;
     currentPeriod := currentPeriod w; currentMonths := currentMonths w;
     pending := pending w |}.

Definition set_currentPeriod (p : string) (w : World) : World :=
  {| authToken := authToken w; document := document w; network := network w;
     console := console w; analyticsData := analyticsData w; isLoading := isLoading w;
     currentPeriod := p; currentMonths := currentMonths w;
     pending := pending w |}.

Definition set_currentMonths (m : option Z) (w : World) : World :=
  {| authToken := authToken w; document := document w; network := network w;
     console := console w; analyticsData := analyticsData w; isLoading := isLoading w;
     currentPeriod := currentPeriod w; currentMonths := m;
     pending := pending w |}.

Definition set_pending (f : list Task -> list Task) (w : World) : World :=
  {| authToken := authToken w; document := document w; network := network w;
     console := console w; analyticsData := analyticsData w; isLoading := isLoading w;
     currentPeriod := currentPeriod w; currentMonths := currentMonths w;
     pending := f (pending w) |}.

(** Run a renderer on the document of the page. *)
Definition on_document {A} (m : ST (gmap string Html) A) : ST World A :=
  fun w => let '(c, d) := m (document w) in (c, set_document (fun _ => d) w).

Definition console_error (label : string) (error : JsError) : ST World unit :=
  modify (set_console (fun l => l ++ [(label, error)])).

End Browser.

Import Browser.

(** ** The API module (analytics-api.js) *)

Module AnalyticsAPI.

Local Open Scope st_scope.

Definition ANALYTICS_API_URL : string := "/api/analytics".

(** The initial [analyticsData], also what [clearAnalyticsData] restores. *)
Definition empty_snapshot : Snapshot :=
  {| trends := JNull; categoryBreakdown := JNull; insights := JNull;
     predictions := JNull; velocity := JNull; forecast := JNull |}.

(** Truthiness of a value that is null or a string, such as what
    [localStorage.getItem] returns. *)
Definition opt_truthy (x : option string) : bool :=
  match x with
  | None => false
  | Some s => negb (String.eqb s "")
  end.

(** [getAuthHeaders()] *)
Definition getAuthHeaders : ST World (list (string * string)) :=
  do token <- gets authToken;
  ret [ ("Content-Type", "application/json");
        ("Authorization",
         if opt_truthy token then "Bearer " +:+ default "" token else "") ].

(** [fetch(url, { headers })]: the request goes out. *)
Definition fetch (url : string) (headers : list (string * string)) : ST World unit :=
  modify (set_network (fun l => l ++ [ {| req_url := url; req_headers := headers |} ])).

(** The handler of [apiFetch]: [console.error(...); throw error]. *)
Definition apiFetch_catch {A} (endpoint : string) (error : JsError) : ST World A :=
  do ' console_error ("Error fetching " +:+ endpoint +:+ ":") error;
  throw error.

(** [apiFetch(endpoint)] up to its [await fetch(...)]. *)
Definition apiFetch_begin (endpoint : string) : ST World unit :=
  try_catch
    (do token <- gets authToken;
     if negb (opt_truthy token)
     then throw (Error "No authentication token found")
     else
       do headers <- getAuthHeaders;
       fetch (ANALYTICS_API_URL +:+ endpoint) headers)
    (apiFetch_catch endpoint).

Definition status_text (n : N) : string := NilZero.string_of_uint (N.to_uint n).

(** [apiFetch(endpoint)] from the moment the network answered with [r]. *)
Definition apiFetch_resume (endpoint : string) (r : FetchResult) : ST World JsVal :=
  try_catch
    (match r with
     | NetworkFailure e => throw e
     | Respond response =>
         if negb (ok response)
         then throw (Error ("API request failed: " +:+ status_text (status response)
                            +:+ " " +:+ statusText response))
         else
           do data <- liftC (json response);
           liftC (Get data "data")
     end)
    (apiFetch_catch endpoint).

(** The endpoints.  [months] is printed in decimal, which is the text
    JavaScript gives for an integer it holds exactly (below 2^53). *)
Definition months_text (months : option Z) : string :=
  match months with
  | Some z => NilZero.string_of_int (Z.to_int z)
  | None => "NaN"
  end.

Definition spendingTrends_endpoint (period : string) (months : option Z) : string :=
  "/spending-trends?period=" +:+ period +:+ "&months=" +:+ months_text months.

Definition categoryBreakdown_endpoint (type : string) (startDate endDate : option string)
  : string :=
  let url := "/category-breakdown?type=" +:+ type in
  let url := match startDate with
             | Some d => if opt_truthy startDate then url +:+ "&startDate=" +:+ d else url
             | None => url
             end in
  match endDate with
  | Some d => if opt_truthy endDate then url +:+ "&endDate=" +:+ d else url
  | None => url
  end.

(** Each fetch operation in its two halves.  The first half is the call of
    [apiFetch]; the second is
    [const data = await apiFetch(..); analyticsData.<slot> = data; return data]. *)
Definition fetchSpendingTrends_begin (period : string) (months : option Z) : ST World unit :=
  apiFetch_begin (spendingTrends_endpoint period months).

Definition fetchSpendingTrends_resume (endpoint : string) (r : FetchResult) : ST World JsVal :=
  do data <- apiFetch_resume endpoint r;
  do ' modify (set_analyticsData (fun s =>
         {| trends := data; categoryBreakdown := categoryBreakdown s;
            insights := insights s; predictions := predictions s;
            velocity := velocity s; forecast := forecast s |}));
  ret data.

Definition fetchCategoryBreakdown_begin (type : string) (startDate endDate : option string)
  : ST World unit :=
  apiFetch_begin (categoryBreakdown_endpoint type startDate endDate).

Definition fetchCategoryBreakdown_resume (endpoint : string) (r : FetchResult)
  : ST World JsVal :=
  do data <- apiFetch_resume endpoint r;
  do ' modify (set_analyticsData (fun s =>
         {| trends := trends s; categoryBreakdown := data;
            insights := insights s; predictions := predictions s;
            velocity := velocity s; forecast := forecast s |}));
  ret data.

Definition fetchInsights_begin : ST World unit := apiFetch_begin "/insights".

Definition fetchInsights_resume (endpoint : string) (r : FetchResult) : ST World JsVal :=
  do data <- apiFetch_resume endpoint r;
  do ' modify (set_analyticsData (fun s =>
         {| trends := trends s; categoryBreakdown := categoryBreakdown s;
            insights := data; predictions := predictions s;
            velocity := velocity s; forecast := forecast s |}));
  ret data.

Definition fetchPredictions_begin : ST World unit := apiFetch_begin "/predictions".

Definition fetchPredictions_resume (endpoint : string) (r : FetchResult) : ST World JsVal :=
  do data <- apiFetch_resume endpoint r;
  do ' modify (set_analyticsData (fun s =>
         {| trends := trends s; categoryBreakdown := categoryBreakdown s;
            insights := insights s; predictions := data;
            velocity := velocity s; forecast := forecast s |}));
  ret data.

Definition fetchSpendingVelocity_begin : ST World unit := apiFetch_begin "/velocity".

Definition fetchSpendingVelocity_resume (endpoint : string) (r : FetchResult)
  : ST World JsVal :=
  do data <- apiFetch_resume endpoint r;
  do ' modify (set_analyticsData (fun s =>
         {| trends := trends s; categoryBreakdown := categoryBreakdown s;
            insights := insights s; predictions := predictions s;
            velocity := data; forecast := forecast s |}));
  ret data.

Definition fetchForecast_begin : ST World unit := apiFetch_begin "/forecast".

Definition fetchForecast_resume (endpoint : string) (r : FetchResult) : ST World JsVal :=
  do data <- apiFetch_resume endpoint r;
  do ' modify (set_analyticsData (fun s =>
         {| trends := trends s; categoryBreakdown := categoryBreakdown s;
            insights := insights s; predictions := predictions s;
            velocity := velocity s; forecast := data |}));
  ret data.

(** The second half of the fetch operation of a view. *)
Definition fetch_resume (v : View) : string -> FetchResult -> ST World JsVal :=
  match v with
  | Trends => fetchSpendingTrends_resume
  | CategoryBreakdown => fetchCategoryBreakdown_resume
  | Insights => fetchInsights_resume
  | Predictions => fetchPredictions_resume
  | Velocity => fetchSpendingVelocity_resume
  | Forecast => fetchForecast_resume
  end.

(** [getAnalyticsData()] and [clearAnalyticsData()] *)
Definition getAnalyticsData : ST World Snapshot := gets analyticsData.

Definition clearAnalyticsData : ST World unit :=
  modify (set_analyticsData (fun _ => empty_snapshot)).

End AnalyticsAPI.

(** ** The renderers module (analytics-renderers.js) *)

Module AnalyticsRenderers.

Import AnalyticsUtils.
Local Open Scope st_scope.

Section WithHost.
Context (host : Host).

(** [breakdown?.categories] *)
Definition breakdown_categories (breakdown : JsVal) : JsVal :=
  match breakdown with
  | JUndefined | JNull => JUndefined
  | _ => match Get breakdown "categories" with
         | Normal v => v
         | Throw _ => JUndefined
         end
  end.

(** [categoryIcons[category] || '📋'] and [categoryColors[category] || '#999'],
    the two lookups of [renderCategoryChart]. *)
Definition categoryIcon (category : JsVal) : JsVal :=
  js_or (GetProp getCategoryIcons (ToPropertyKey (host_to_string host) category))
        (JString "📋").

Definition categoryColor (category : JsVal) : JsVal :=
  js_or (GetProp getCategoryColors (ToPropertyKey (host_to_string host) category))
        (JString "#999").

(** [renderTrendsChart(trends)] *)
Definition renderTrendsChart (trends : JsVal) : ST (gmap string Html) unit :=
  with_container "trends-chart"
    (if negb (ToBoolean (isValidData trends))
     then set_innerHTML [NoData "No trend data available"]
     else
       do ' set_innerHTML [];
       do ' appendChild (Canvas "trends-line-chart" None);
       do labels <- liftC (Array_map (fun trend => Get trend "month") trends);
       do data <- liftC (Array_map (fun trend => Get trend "amount") trends);
       Chart_new host "trends-line-chart" (LineChart labels data)).

(** The two functions of the utils module on this page. *)
Definition currency (value : JsVal) : Completion JsVal :=
  formatAnalyticsCurrency (host_i18n host) (host_to_number host) value.

Definition capitalized (str : JsVal) : Completion string :=
  capitalizeFirst (host_toUpperCase host) str.

(** [Math.min(100, (velocity.dayOfMonth / 30) * 100)] *)
Definition progressPercent (dayOfMonth : JsVal) : Completion JsNum :=
  (do day <- ToNumber (host_to_number host) dayOfMonth;
   Normal (Math_min (Num 100) (day / Num 30 * Num 100)%float))%js.

(** [renderVelocityWidget(velocity)].  The markup is built, field by field,
    before it is assigned. *)
Definition renderVelocityWidget (velocity : JsVal) : ST (gmap string Html) unit :=
  with_container "velocity-widget"
    (do dayOfMonth <- liftC (Get velocity "dayOfMonth");
     do percent <- liftC (progressPercent dayOfMonth);
     do dayOfMonth <- liftC (interpolate dayOfMonth);
     do currentSpent <- liftC (Get velocity "currentSpent");
     do currentSpent <- liftC (currency currentSpent);
     do dailyAverage <- liftC (Get velocity "dailyAverage");
     do dailyAverage <- liftC (currency dailyAverage);
     do projectedMonthEnd <- liftC (Get velocity "projectedMonthEnd");
     do projectedMonthEnd <- liftC (currency projectedMonthEnd);
     do daysRemaining <- liftC (Get velocity "daysRemaining");
     do daysRemaining <- liftC (interpolate daysRemaining);
     set_innerHTML
       [VelocityWidget dayOfMonth currentSpent dailyAverage projectedMonthEnd
          percent daysRemaining]).

(** One label of the pie chart:
    [`${categoryIcons[cat.category] || '📋'} ${capitalizeFirst(cat.category)}`].
    The category is converted to the key of the lookup, the icon to text. *)
Definition category_label (cat : JsVal) : Completion (JsVal * string) :=
  (do category <- Get cat "category";
   do key <- interpolate category;
   do icon <- interpolate (categoryIcon category);
   do name <- capitalized category;
   Normal (icon, name))%js.

(** [categoryColors[cat.category] || '#999'] *)
Definition category_color (cat : JsVal) : Completion JsVal :=
  (do category <- Get cat "category";
   do key <- interpolate category;
   Normal (categoryColor category))%js.

(** [renderCategoryChart(breakdown)] *)
Definition renderCategoryChart (breakdown : JsVal) : ST (gmap string Html) unit :=
  with_container "category-chart"
    (if negb (ToBoolean (isValidData (breakdown_categories breakdown)))
     then set_innerHTML [NoData "No expense data available"]
     else
       do ' set_innerHTML [];
       do grandTotal <- liftC (Get breakdown "grandTotal");
       do grandTotal <- liftC (currency grandTotal);
       do ' appendChild (CategoryChartHeader grandTotal);
       do ' appendChild (Canvas "category-pie-chart" None);
       do categories <- liftC (Get breakdown "categories");
       do labels <- liftC (Array_map category_label categories);
       do data <- liftC (Array_map (fun cat => Get cat "total") categories);
       do backgroundColor <- liftC (Array_map category_color categories);
       do borderColor <- liftC (Array_map category_color categories);
       Chart_new host "category-pie-chart"
         (PieChart labels data backgroundColor borderColor)).

(** One entry of the insights list:
    [`<h5>${insight.title}</h5> <p>${insight.description}</p>
      ${insight.suggestion ? `<small>${insight.suggestion}</small>` : ''}`] *)
Definition insight_item (insight : JsVal) : Completion InsightItem :=
  (do title <- Get insight "title";
   do title <- interpolate title;
   do description <- Get insight "description";
   do description <- interpolate description;
   do suggestion <- Get insight "suggestion";
   if ToBoolean suggestion
   then
     do suggestion <- interpolate suggestion;
     Normal {| insight_title := title;
               insight_description := description;
               insight_suggestion := Some suggestion |}
   else
     Normal {| insight_title := title;
               insight_description := description;
               insight_suggestion := None |})%js.

(** [renderInsightsWidget(insights)] *)
Definition renderInsightsWidget (insights : JsVal) : ST (gmap string Html) unit :=
  with_container "insights-widget"
    (if negb (ToBoolean (isValidData insights))
     then set_innerHTML [NoData "No insights available"]
     else
       do items <- liftC (Array_map insight_item insights);
       set_innerHTML [InsightsWidget items]).

(** One entry of the predictions list. *)
Definition prediction_item (prediction : JsVal) : Completion PredictionItem :=
  (do category <- Get prediction "category";
   do name <- capitalized category;
   do confidence <- Get prediction "confidence";
   do confidence <- formatPercentage (host_to_number host) confidence;
   do predictedAmount <- Get prediction "predictedAmount";
   do predictedAmount <- currency predictedAmount;
   Normal {| prediction_category := name;
             prediction_confidence := confidence;
             prediction_predictedAmount := predictedAmount |})%js.

(** [renderPredictionsWidget(predictions)] *)
Definition renderPredictionsWidget (predictions : JsVal) : ST (gmap string Html) unit :=
  with_container "predictions-widget"
    (if negb (ToBoolean (isValidData predictions))
     then set_innerHTML [NoData "No predictions available"]
     else
       do items <- liftC (Array_map prediction_item predictions);
       set_innerHTML [PredictionsWidget items]).

(** [renderForecastWidget(forecast)] *)
Definition renderForecastWidget (forecast : JsVal) : ST (gmap string Html) unit :=
  with_container "forecast-widget"
    (if negb (ToBoolean (isValidData forecast))
     then set_innerHTML [NoData "No forecast data available"]
     else
       do threeMonthProjection <- liftC (Get forecast "threeMonthProjection");
       do threeMonthProjection <- liftC (currency threeMonthProjection);
       do sixMonthProjection <- liftC (Get forecast "sixMonthProjection");
       do sixMonthProjection <- liftC (currency sixMonthProjection);
       do savingsPotential <- liftC (Get forecast "savingsPotential");
       do savingsPotential <- liftC (currency savingsPotential);
       set_innerHTML
         [ForecastWidget threeMonthProjection sixMonthProjection savingsPotential]).

(** The render operation of a view. *)
Definition render (v : View) : JsVal -> ST (gmap string Html) unit :=
  match v with
  | Trends => renderTrendsChart
  | CategoryBreakdown => renderCategoryChart
  | Insights => renderInsightsWidget
  | Predictions => renderPredictionsWidget
  | Velocity => renderVelocityWidget
  | Forecast => renderForecastWidget
  end.

End WithHost.

End AnalyticsRenderers.

(** ** The orchestrator (class AnalyticsDashboard) *)

Module AnalyticsDashboard.

Import AnalyticsAPI AnalyticsRenderers.
Local Open Scope st_scope.

(** What the page can do to the controller.  The first full refresh, made by
    [init()] once the scripts are loaded, is a [ClickRefresh]; the two change
    events exist only where [bindEvents()] found the selector. *)
Inductive Event : Type :=
| ClickRefresh                                (* #refresh-analytics, click *)
| ChangePeriod (value : string)               (* #analytics-period, change *)
| ChangeMonths (value : string)               (* #analytics-months, change *)
| Settle (n : nat) (r : FetchResult).         (* the n-th pending task gets its answer *)

Section WithHost.
Context (host : Host).

(** [showLoadingState()] *)
Definition showLoadingState : ST World unit :=
  on_document
    (fun d =>
       (Normal tt,
        foldl (fun d id => match d !! id with
                           | Some _ => <[id := [LoadingSpinner]]> d
                           | None => d
                           end)
              d
              [ "trends-chart"; "category-chart"; "insights-widget";
                "predictions-widget"; "velocity-widget"; "forecast-widget" ])).

(** [hideLoadingState()]: the body is empty. *)
Definition hideLoadingState : ST World unit := ret tt.

(** [showChartError(containerId, message)] and
    [showWidgetError(containerId, message)] *)
Definition showChartError (containerId message : string) : ST World unit :=
  on_document (with_container containerId (set_innerHTML [ErrorState message])).

Definition showWidgetError (containerId message : string) : ST World unit :=
  on_document (with_container containerId (set_innerHTML [ErrorState message])).

(** Launching a task: the fetch operation runs up to its request; the task
    then waits in [pending], already rejected when the fetch threw. *)
Definition launch (v : View) (batch : bool) (endpoint : string)
  (fetch_begin : ST World unit) : ST World unit :=
  fun w =>
    let '(c, w') := fetch_begin w in
    let st := match c with
              | Normal _ => Awaiting
              | Throw e => Rejected e
              end in
    (Normal tt,
     set_pending (fun l => l ++ [ {| task_view := v; task_batch := batch;
                                      task_endpoint := endpoint; task_state := st |} ])
                 w').

(** What [await window.AnalyticsAPI.fetch...()] gives once the task settles. *)
Definition awaited (t : Task) (r : FetchResult) : ST World JsVal :=
  match task_state t with
  | Rejected e => throw e
  | Awaiting => fetch_resume (task_view t) (task_endpoint t) r
  end.

(** [loadTrendsData()] *)
Definition loadTrendsData_begin (batch : bool) : ST World unit :=
  do period <- gets currentPeriod;
  do months <- gets currentMonths;
  launch Trends batch (spendingTrends_endpoint period months)
    (fetchSpendingTrends_begin period months).

Definition loadTrendsData_resume (t : Task) (r : FetchResult) : ST World unit :=
  try_catch
    (do trends <- awaited t r;
     on_document (renderTrendsChart host trends))
    (fun error =>
       do ' console_error "Error loading trends:" error;
       showChartError "trends-chart" "Failed to load spending trends").

(** [loadCategoryData()] *)
Definition loadCategoryData_begin (batch : bool) : ST World unit :=
  launch CategoryBreakdown batch (categoryBreakdown_endpoint "expense" None None)
    (fetchCategoryBreakdown_begin "expense" None None).

Definition loadCategoryData_resume (t : Task) (r : FetchResult) : ST World unit :=
  try_catch
    (do breakdown <- awaited t r;
     on_document (renderCategoryChart host breakdown))
    (fun error =>
       do ' console_error "Error loading categories:" error;
       showChartError "category-chart" "Failed to load category breakdown").

(** [loadInsightsData()] *)
Definition loadInsightsData_begin (batch : bool) : ST World unit :=
  launch Insights batch "/insights" fetchInsights_begin.

Definition loadInsightsData_resume (t : Task) (r : FetchResult) : ST World unit :=
  try_catch
    (do insights <- awaited t r;
     on_document (renderInsightsWidget insights))
    (fun error =>
       do ' console_error "Error loading insights:" error;
       showWidgetError "insights-widget" "Failed to load insights").

(** [loadPredictionsData()] *)
Definition loadPredictionsData_begin (batch : bool) : ST World unit :=
  launch Predictions batch "/predictions" fetchPredictions_begin.

Definition loadPredictionsData_resume (t : Task) (r : FetchResult) : ST World unit :=
  try_catch
    (do predictions <- awaited t r;
     on_document (renderPredictionsWidget host predictions))
    (fun error =>
       do ' console_error "Error loading predictions:" error;
       showWidgetError "predictions-widget" "Failed to load predictions").

(** [loadVelocityData()] *)
Definition loadVelocityData_begin (batch : bool) : ST World unit :=
  launch Velocity batch "/velocity" fetchSpendingVelocity_begin.

Definition loadVelocityData_resume (t : Task) (r : FetchResult) : ST World unit :=
  try_catch
    (do velocity <- awaited t r;
     on_document (renderVelocityWidget host velocity))
    (fun error =>
       do ' console_error "Error loading velocity:" error;
       showWidgetError "velocity-widget" "Failed to load velocity data").

(** [loadForecastData()] *)
Definition loadForecastData_begin (batch : bool) : ST World unit :=
  launch Forecast batch "/forecast" fetchForecast_begin.

Definition loadForecastData_resume (t : Task) (r : FetchResult) : ST World unit :=
  try_catch
    (do forecast <- awaited t r;
     on_document (renderForecastWidget host forecast))
    (fun error =>
       do ' console_error "Error loading forecast:" error;
       showWidgetError "forecast-widget" "Failed to load forecast data").

(** The second half of the task of a view. *)
Definition task_resume (t : Task) (r : FetchResult) : ST World unit :=
  match task_view t with
  | Trends => loadTrendsData_resume t r
  | CategoryBreakdown => loadCategoryData_resume t r
  | Insights => loadInsightsData_resume t r
  | Predictions => loadPredictionsData_resume t r
  | Velocity => loadVelocityData_resume t r
  | Forecast => loadForecastData_resume t r
  end.

(** The message a failed task leaves in its region. *)
Definition error_message (v : View) : string :=
  match v with
  | Trends => "Failed to load spending trends"
  | CategoryBreakdown => "Failed to load category breakdown"
  | Insights => "Failed to load insights"
  | Predictions => "Failed to load predictions"
  | Velocity => "Failed to load velocity data"
  | Forecast => "Failed to load forecast data"
  end.

(** [loadAllAnalytics()] up to [await Promise.allSettled(promises)].  None of
    the six calls can throw into it (each is an async function) and
    [Promise.allSettled] never rejects, so the [catch] block with
    [showErrorState] is never entered; only [try] and [finally] are here. *)
Definition loadAllAnalytics : ST World unit :=
  do loading <- gets isLoading;
  if loading then ret tt
  else
    do ' modify (set_isLoading true);
    do ' showLoadingState;
    do ' loadTrendsData_begin true;
    do ' loadCategoryData_begin true;
    do ' loadInsightsData_begin true;
    do ' loadPredictionsData_begin true;
    do ' loadVelocityData_begin true;
    loadForecastData_begin true.

(** The [finally] block of [loadAllAnalytics()]. *)
Definition loadAllAnalytics_finally : ST World unit :=
  do ' modify (set_isLoading false);
  hideLoadingState.

(** A pending task settles.  When it was the last one of a full refresh
    still pending, [Promise.allSettled] resolves and the [finally] block
    runs. *)
Definition settle (n : nat) (r : FetchResult) (w : World) : World :=
  match pending w !! n with
  | None => w
  | Some t =>
      let w1 := set_pending (delete n) w in
      let w2 := (task_resume t r w1).2 in
      if task_batch t && negb (existsb task_batch (pending w2))
      then (loadAllAnalytics_finally w2).2
      else w2
  end.

(** One event. *)
Definition step (w : World) (ev : Event) : World :=
  match ev with
  | ClickRefresh => (loadAllAnalytics w).2
  | ChangePeriod value =>
      (loadTrendsData_begin false (set_currentPeriod value w)).2
  | ChangeMonths value =>
      (loadTrendsData_begin false (set_currentMonths (host_parseInt host value) w)).2
  | Settle n r => settle n r w
  end.

Definition run (w : World) (evs : list Event) : World := foldl step w evs.

End WithHost.

(** [new AnalyticsDashboard()] on a page: nothing loading, monthly, 6. *)
Definition new_page (token : option string) (doc : gmap string Html) : World :=
  {| authToken := token; document := doc; network := []; console := [];
     analyticsData := empty_snapshot; isLoading := false;
     currentPeriod := "monthly"; currentMonths := Some 6%Z; pending := [] |}.

End AnalyticsDashboard.

(** ** More of the utils module: [debounce] *)

Module Debounce.

Section WithArgs.

Context {Args : Type}.

(** The timers of the page as far as one debounced function goes.
    [timeout] is the variable of the closure; [live] are the timers that were
    set and have neither fired nor been cleared, each with the arguments its
    [later] captured; [invoked] are the calls of [func], oldest first.  How
    long a timer waits is not part of the state: a live timer may fire at any
    moment. *)
Record Timers : Type := {
  timeout : option nat;
  live : list (nat * Args);
  next_id : nat;
  invoked : list Args
}.

Definition no_timers : Timers :=
  {| timeout := None; live := []; next_id := 1; invoked := [] |}.

(** [clearTimeout(id)]; on undefined, and on a timer that is not live, it
    does nothing. *)
Definition clearTimeout (id : option nat) (l : list (nat * Args)) : list (nat * Args) :=
  match id with
  | None => l
  | Some i => filter (fun p => p.1 ≠ i) l
  end.

(** One call of the function [debounce(func, wait)] returned:
    [clearTimeout(timeout); timeout = setTimeout(later, wait)]. *)
Definition executedFunction (args : Args) (s : Timers) : Timers :=
  {| timeout := Some (next_id s);
     live := clearTimeout (timeout s) (live s) ++ [(next_id s, args)];
     next_id := S (next_id s);
     invoked := invoked s |}.

(** The timer [id] fires, if it is live: [clearTimeout(timeout); func(...args)]. *)
Definition fire (id : nat) (s : Timers) : Timers :=
  match list_find (fun p => p.1 = id) (live s) with
  | None => s
  | Some (_, (_, args)) =>
      {| timeout := timeout s;
         live := clearTimeout (timeout s) (filter (fun p => p.1 ≠ id) (live s));
         next_id := next_id s;
         invoked := invoked s ++ [args] |}
  end.

Inductive TimerEvent : Type :=
| Call (args : Args)
| Fire (id : nat).

Definition timer_step (s : Timers) (ev : TimerEvent) : Timers :=
  match ev with
  | Call args => executedFunction args s
  | Fire id => fire id s
  end.

Definition timer_run (s : Timers) (evs : list TimerEvent) : Timers :=
  foldl timer_step s evs.

End WithArgs.

Arguments Timers Args : clear implicits.
Arguments TimerEvent Args : clear implicits.

End Debounce.

(** ** The server configuration (server-config.js) *)

Module ServerConfig.

(** [process.env] as far as [configureCORS] reads it. *)
Record Env : Type := {
  NODE_ENV : option string;
  FRONTEND_URL : option string
}.

(** What [new URL(origin)] gives, as far as it is read. *)
Record Url : Type := {
  protocol : string;
  hostname : string
}.

(** [callback(null, true)] or [callback(new Error(message))]. *)
Inductive Decision : Type :=
| Allow
| Deny (message : string).

(** [[...].filter(Boolean)] *)
Definition allowedOrigins (env : Env) : list string :=
  [ "http://localhost:3000"; "http://localhost:3001" ] ++
  (if AnalyticsAPI.opt_truthy (FRONTEND_URL env)
   then [default "" (FRONTEND_URL env)] else []).

(** The [origin] function of [configureCORS()].  [parse] is [new URL], [None]
    when it throws.  The second component is the [console.warn], if any. *)
Definition origin_policy (parse : string -> option Url) (env : Env)
  (origin : option string) : Decision * option string :=
  if negb (AnalyticsAPI.opt_truthy origin) then (Allow, None)
  else
    let o := default "" origin in
    match parse o with
    | None => (Deny "Invalid origin format", None)
    | Some url =>
        if negb (bool_decide (protocol url ∈ ["http:"; "https:"]))
        then (Deny "Invalid protocol", None)
        else if bool_decide (NODE_ENV env = Some "production")
                && bool_decide (hostname url = "localhost")
        then (Deny "Localhost not allowed in production", None)
        else if bool_decide (o ∈ allowedOrigins env)
        then (Allow, None)
        else (Deny "Not allowed by CORS policy",
              Some ("CORS blocked request from origin: " +:+ o))
    end.




End ServerConfig.

(** ** Loading the page: [DOMContentLoaded], [init()], the three scripts *)

Module Bootstrap.

Import AnalyticsDashboard.

Inductive PageEvent : Type :=
| DOMContentLoaded
| ScriptLoaded                     (* [onload] of one of the three scripts *)
| Dashboard (ev : Event).          (* a listener of the dashboard, or a response *)

(** [constructed]: the handler of DOMContentLoaded made the dashboard and
    [init()] waits for the scripts.  [loaded]: the counter of
    [loadAnalyticsDependencies()].  [ready]: that promise resolved, the
    listeners are bound. *)
Record Page : Type := {
  constructed : bool;
  loaded : nat;
  ready : bool;
  world : World
}.

Definition opening (w : World) : Page :=
  {| constructed := false; loaded := 0; ready := false; world := w |}.

(** [new AnalyticsDashboard()] *)
Definition construct (w : World) : World :=
  set_currentMonths (Some 6%Z) (set_currentPeriod "monthly" (set_isLoading false w)).

Section WithHost.
Context (host : Host).

Definition page_step (p : Page) (ev : PageEvent) : Page :=
  match ev with
  | DOMContentLoaded =>
      match document (world p) !! "analytics-dashboard" with
      | Some _ =>
          {| constructed := true; loaded := 0; ready := false;
             world := construct (world p) |}
      | None => p
      end
  | ScriptLoaded =>
      if constructed p
      then
        if (S (loaded p) =? 3)%nat
        then {| constructed := true; loaded := S (loaded p); ready := true;
                world := (loadAllAnalytics (world p)).2 |}
        else {| constructed := true; loaded := S (loaded p); ready := ready p;
                world := world p |}
      else p
  | Dashboard ev =>
      if ready p
      then {| constructed := constructed p; loaded := loaded p; ready := true;
              world := step host (world p) ev |}
      else p
  end.

Definition page_run (p : Page) (evs : list PageEvent) : Page := foldl page_step p evs.

End WithHost.

End Bootstrap.

(** * Properties of the dashboard *)

Import AnalyticsUtils AnalyticsAPI AnalyticsRenderers AnalyticsDashboard.

(** ** Vocabulary of the statements *)

(** The error [apiFetch] throws when no token is stored. *)
Definition AuthError : JsError := Error "No authentication token found".

(** What a response is worth to [apiFetch]: the payload of its envelope, or
    the exception thrown on the way. *)
Definition response_payload (r : FetchResult) : Completion JsVal :=
  match r with
  | NetworkFailure e => Throw e
  | Respond response =>
      if negb (ok response)
      then Throw (Error ("API request failed: " +:+ status_text (status response)
                         +:+ " " +:+ statusText response))
      else bindC (json response) (fun data => Get data "data")
  end.

(** The outcome of the fetch operation of a task that settles on [r]. *)
Definition fetch_outcome (t : Task) (r : FetchResult) : Completion JsVal :=
  match task_state t with
  | Rejected e => Throw e
  | Awaiting => response_payload r
  end.

Definition set_slot (v : View) (x : JsVal) (s : Snapshot) : Snapshot :=
  match v with
  | Trends =>
      {| trends := x; categoryBreakdown := categoryBreakdown s; insights := insights s;
         predictions := predictions s; velocity := velocity s; forecast := forecast s |}
  | CategoryBreakdown =>
      {| trends := trends s; categoryBreakdown := x; insights := insights s;
         predictions := predictions s; velocity := velocity s; forecast := forecast s |}
  | Insights =>
      {| trends := trends s; categoryBreakdown := categoryBreakdown s; insights := x;
         predictions := predictions s; velocity := velocity s; forecast := forecast s |}
  | Predictions =>
      {| trends := trends s; categoryBreakdown := categoryBreakdown s; insights := insights s;
         predictions := x; velocity := velocity s; forecast := forecast s |}
  | Velocity =>
      {| trends := trends s; categoryBreakdown := categoryBreakdown s; insights := insights s;
         predictions := predictions s; velocity := x; forecast := forecast s |}
  | Forecast =>
      {| trends := trends s; categoryBreakdown := categoryBreakdown s; insights := insights s;
         predictions := predictions s; velocity := velocity s; forecast := x |}
  end.

(** The label of the [console.error] in the handler of a task. *)
Definition error_label (v : View) : string :=
  match v with
  | Trends => "Error loading trends:"
  | CategoryBreakdown => "Error loading categories:"
  | Insights => "Error loading insights:"
  | Predictions => "Error loading predictions:"
  | Velocity => "Error loading velocity:"
  | Forecast => "Error loading forecast:"
  end.

(** Writing into a region that exists. *)
Definition put (id : string) (h : Html) (d : gmap string Html) : gmap string Html :=
  match d !! id with
  | Some _ => <[id := h]> d
  | None => d
  end.

(** What a settled task leaves in its region: read off a run of the renderer
    on a page that has just this region. *)
Definition task_content (host : Host) (t : Task) (r : FetchResult) : Html :=
  let v := task_view t in
  match fetch_outcome t r with
  | Throw _ => [ErrorState (error_message v)]
  | Normal payload =>
      match render host v payload {[ region v := [] ]} with
      | (Normal _, d) => default [] (d !! region v)
      | (Throw _, _) => [ErrorState (error_message v)]
      end
  end.

(** A renderer body writes the same thing whatever the region held, and never
    the spinner. *)
Definition body_ok (body : ST Html unit) : Prop :=
  forall h1 h2,
    (body h1).1 = (body h2).1 /\
    ((body h1).1 = Normal tt ->
     (body h1).2 = (body h2).2 /\ LoadingSpinner ∉ (body h1).2).

(** The task a launch appends to [pending]. *)
Definition new_task (v : View) (batch : bool) (endpoint : string) (token : option string)
  : Task :=
  {| task_view := v; task_batch := batch; task_endpoint := endpoint;
     task_state := if opt_truthy token then Awaiting else Rejected AuthError |}.

Definition launched (v : View) (batch : bool) (endpoint : string) (w : World) : World :=
  set_pending (fun l => l ++ [new_task v batch endpoint (authToken w)])
    (apiFetch_begin endpoint w).2.

(** The world an accepted full refresh leaves, and the six tasks it launches. *)
Definition refreshed (w : World) : World :=
  let w0 := (showLoadingState (set_isLoading true w)).2 in
  let w1 := launched Trends true
              (spendingTrends_endpoint (currentPeriod w) (currentMonths w)) w0 in
  let w2 := launched CategoryBreakdown true
              (categoryBreakdown_endpoint "expense" None None) w1 in
  let w3 := launched Insights true "/insights" w2 in
  let w4 := launched Predictions true "/predictions" w3 in
  let w5 := launched Velocity true "/velocity" w4 in
  launched Forecast true "/forecast" w5.

Definition refresh_tasks (w : World) : list Task :=
  [ new_task Trends true
      (spendingTrends_endpoint (currentPeriod w) (currentMonths w)) (authToken w);
    new_task CategoryBreakdown true
      (categoryBreakdown_endpoint "expense" None None) (authToken w);
    new_task Insights true "/insights" (authToken w);
    new_task Predictions true "/predictions" (authToken w);
    new_task Velocity true "/velocity" (authToken w);
    new_task Forecast true "/forecast" (authToken w) ].

(** The invariant of the controller: it is loading exactly while a task of a
    full refresh is pending, and a region shows the spinner only while the
    task of its view in a full refresh is pending. *)
Definition Inv (w : World) : Prop :=
  isLoading w = existsb task_batch (pending w) /\
  forall v h,
    document w !! region v = Some h -> LoadingSpinner ∈ h ->
    exists t, t ∈ pending w /\ task_view t = v /\ task_batch t = true.

(** A page on which the controller was just constructed. *)
Definition fresh_page (w : World) : Prop :=
  isLoading w = false /\ pending w = [] /\
  forall v h, document w !! region v = Some h -> LoadingSpinner ∉ h.

(** An order of settling for [k] pending tasks: each step names the position,
    in what is still pending, of the task that settles, and its answer. *)
Fixpoint valid_schedule (k : nat) (sched : list (nat * FetchResult)) : bool :=
  match sched, k with
  | [], 0 => true
  | (n, _) :: rest, S k' => (n <? S k')%nat && valid_schedule k' rest
  | _, _ => false
  end.

Definition settle_events (sched : list (nat * FetchResult)) : list Event :=
  map (fun p => Settle p.1 p.2) sched.

(** What each renderer hands to [isValidData]. *)
Definition gate_argument (v : View) (payload : JsVal) : JsVal :=
  match v with
  | CategoryBreakdown => breakdown_categories payload
  | _ => payload
  end.

(** The keys of the two lookup tables. *)
Definition known_categories : list string :=
  ["food"; "transport"; "entertainment"; "utilities"; "healthcare"; "shopping"; "other"].

(** Sample data. *)
Definition sample_host : Host :=
  {| host_to_number := fun _ => NaN;
     host_to_string := fun _ => "[object Object]";
     host_toUpperCase := fun s => s;
     host_parseInt := fun _ => None;
     host_i18n := false;
     host_chart := fun _ => None |}.

Definition sample_document : gmap string Html :=
  list_to_map (map (fun v => (region v, [])) all_views).

Definition sample_page : World := new_page (Some "secret") sample_document.

Definition success (payload : JsVal) : FetchResult :=
  Respond {| ok := true; status := 200; statusText := "OK";
             json := Normal (JObject [("data", payload)]) |}.

Definition sample_schedule : list (nat * FetchResult) :=
  [ (4, success (JObject [("dayOfMonth", JNumber (Num 15))]));
    (0, NetworkFailure (HostError "Failed to fetch"));
    (3, Respond {| ok := false; status := 500; statusText := "Internal Server Error";
                   json := Throw (HostError "Unexpected end of JSON input") |});
    (0, success (JArray []));
    (1, success JNull);
    (0, success (JArray [JObject [("title", JString "Tip")]])) ].



Definition sample_breakdown : JsVal :=
  JObject [ ("categories",
             JArray [JObject [("category", JString "constructor");
                              ("total", JNumber (Num 10))]]);
            ("grandTotal", JNumber (Num 10)) ].

(** ** Vocabulary of the further properties *)

Import Debounce ServerConfig Bootstrap.

(** The placeholder of each renderer that has one. *)
Definition no_data_message (v : View) : string :=
  match v with
  | Trends => "No trend data available"
  | CategoryBreakdown => "No expense data available"
  | Insights => "No insights available"
  | Predictions => "No predictions available"
  | Velocity => ""
  | Forecast => "No forecast data available"
  end.

(** An answer with a success status and a JSON body. *)
Definition ok_response (n : N) (text : string) (body : JsVal) : FetchResult :=
  Respond {| ok := true; status := n; statusText := text; json := Normal body |}.

(** The request [apiFetch] makes for an endpoint with a token. *)
Definition request_for (endpoint token : string) : Request :=
  {| req_url := ANALYTICS_API_URL +:+ endpoint;
     req_headers := [ ("Content-Type", "application/json");
                      ("Authorization", "Bearer " +:+ token) ] |}.

(** A request that carries the stored, non-empty token. *)
Definition authenticated (w : World) (req : Request) : Prop :=
  exists endpoint token,
    authToken w = Some token /\ token ≠ "" /\ req = request_for endpoint token.

(** A trends payload from its points, an insights payload from its entries. *)
Definition trend_point (p : JsVal * JsVal) : JsVal :=
  JObject [("month", p.1); ("amount", p.2)].

Definition insight_of (props : list (string * JsVal)) : InsightItem :=
  {| insight_title := GetProp props "title";
     insight_description := GetProp props "description";
     insight_suggestion :=
       if ToBoolean (GetProp props "suggestion")
       then Some (GetProp props "suggestion") else None |}.

(** The calls of a burst. *)
Definition calls {Args} (burst : list Args) : list (TimerEvent Args) := map Call burst.

(** At most one timer is live, and it is the one [timeout] names. *)
Definition one_timer {Args} (s : Timers Args) : Prop :=
  (live s = [] \/ exists id args, live s = [(id, args)] /\ timeout s = Some id) /\
  Forall (fun p => p.1 < next_id s) (live s).

(** A parser that reads the two built-in origins as the browser does. *)
Definition localhost_parser (origin : string) : option Url :=
  if bool_decide (origin ∈ ["http://localhost:3000"; "http://localhost:3001"])
  then Some {| protocol := "http:"; hostname := "localhost" |}
  else if String.prefix "https://" origin
  then Some {| protocol := "https:"; hostname := "app.example" |}
  else None.

Definition sample_env : Env :=
  {| NODE_ENV := Some "production"; FRONTEND_URL := Some "https://app.example" |}.

(** The number of script loads among the events of a page. *)
Fixpoint script_loads (evs : list PageEvent) : nat :=
  match evs with
  | [] => 0
  | ScriptLoaded :: evs' => S (script_loads evs')
  | _ :: evs' => script_loads evs'
  end.

(** Running a renderer body on what it left gives the same again. *)
Definition body_idem (body : ST Html unit) : Prop :=
  forall h, body (body h).2 = body h.

(** One entry of a category breakdown, from its name and its total. *)
Definition category_entry (c : string * JsVal) : JsVal :=
  JObject [("category", JString c.1); ("total", c.2)].

Definition breakdown_of (cats : list (string * JsVal)) (grandTotal : JsVal) : JsVal :=
  JObject [("categories", JArray (map category_entry cats)); ("grandTotal", grandTotal)].

(** A page with just the insights region. *)
Definition sample_overview : gmap string Html :=
  {[ "insights-widget" := [LoadingSpinner] ]}.





(** An insight whose texts convert: the title, the description and, when it
    is truthy, the suggestion. *)
Definition insight_converts (props : list (string * JsVal)) : bool :=
  convertible (GetProp props "title") &&
  convertible (GetProp props "description") &&
  (negb (ToBoolean (GetProp props "suggestion")) ||
   convertible (GetProp props "suggestion")).

(** An object with an own key [toString] that is data, as
    [JSON.parse('{"toString": null}')] gives. *)
Definition unprintable : JsVal := JObject [("toString", JNull)].

(** Tactics. *)
Ltac not_in_list :=
  let H := fresh in
  intros H; repeat (apply elem_of_cons in H as [H|H]; [discriminate H|]);
  by apply elem_of_nil in H.

Ltac run_body :=
  unfold body_ok; intros ? ?;
  unfold bind, liftC, set_innerHTML, appendChild, modify, Chart_new; cbn;
  repeat (case_match; cbn; try done);
  simplify_eq; repeat split; try done; try not_in_list.

(** ** Regions and containers *)

Section Containers.

Implicit Types (d : gmap string Html) (id : string) (body : ST Html unit).

Lemma region_inj v v' : region v = region v' -> v = v'.
Proof. by destruct v, v'. Qed.

Lemma with_container_absent id body d :
  d !! id = None -> with_container id body d = (Normal tt, d).
Proof. intros H. unfold with_container. by rewrite H. Qed.

Lemma with_container_present id body d h :
  d !! id = Some h ->
  with_container id body d = ((body h).1, <[id := (body h).2]> d).
Proof. intros H. unfold with_container. rewrite H. by destruct (body h). Qed.

Lemma with_container_frame id body d id' :
  id' ≠ id -> (with_container id body d).2 !! id' = d !! id'.
Proof.
  intros Hne. unfold with_container. destruct (d !! id) as [h|] eqn:E; [|done].
  destruct (body h); cbn. by rewrite lookup_insert_ne.
Qed.

Lemma put_lookup id h d : put id h d !! id = (fun _ => h) <$> (d !! id).
Proof.
  unfold put. destruct (d !! id) eqn:E; cbn.
  - by rewrite lookup_insert_eq.
  - by rewrite E.
Qed.

Lemma put_lookup_ne id id' h d : id' ≠ id -> put id h d !! id' = d !! id'.
Proof.
  intros Hne. unfold put. destruct (d !! id); [|done]. by rewrite lookup_insert_ne.
Qed.

End Containers.

(** ** The renderers *)

Section Renderers.

Context (host : Host).

(** Every renderer is a body run on its own region. *)
Lemma render_shape v payload :
  exists body, render host v payload = with_container (region v) body /\ body_ok body.
Proof.
  destruct v; eexists; (split; [reflexivity|]).
  - run_body.
  - run_body.
  - run_body.
  - run_body.
  - run_body.
  - run_body.
Qed.

Lemma render_frame v payload (d : gmap string Html) id :
  id ≠ region v -> (render host v payload d).2 !! id = d !! id.
Proof.
  intros Hne. destruct (render_shape v payload) as (body & -> & _).
  by apply with_container_frame.
Qed.

(** The five renderers that call [isValidData] show the placeholder when it
    is falsy. *)
Lemma siblings_apply_gate v payload (d : gmap string Html) h :
  v ≠ Velocity ->
  d !! region v = Some h ->
  ToBoolean (isValidData (gate_argument v payload)) = false ->
  exists message,
    render host v payload d = (Normal tt, <[region v := [NoData message]]> d).
Proof.
  intros Hv Hd Hg. destruct v; try done; cbn in Hg |- *;
    unfold renderTrendsChart, renderCategoryChart, renderInsightsWidget,
      renderPredictionsWidget, renderForecastWidget;
    rewrite (with_container_present _ _ _ _ Hd), Hg; cbn; eauto.
Qed.

Lemma assoc_None key props : key ∉ map fst props -> assoc key props = None.
Proof.
  induction props as [|[k x] props IH]; cbn; [done|].
  intros Hn. apply not_elem_of_cons in Hn as [Hne Hn].
  destruct (String.eqb_spec k key); [congruence|]. by apply IH.
Qed.

(** Outside the tables and outside [Object.prototype], the lookups give the
    defaults. *)
Lemma unknown_category_defaults category :
  category ∉ known_categories ->
  category ∉ ObjectPrototype_names ->
  categoryColor host (JString category) = JString "#999" /\
  categoryIcon host (JString category) = JString "📋".
Proof.
  intros Hk Hp. unfold categoryColor, categoryIcon, GetProp. cbn [ToPropertyKey].
  rewrite !assoc_None by done.
  unfold ObjectPrototype. by rewrite bool_decide_eq_false_2.
Qed.

(** Conversions that return give back the value they were given. *)
Lemma interpolate_Normal v a : interpolate v = Normal a -> a = v /\ convertible v = true.
Proof. unfold interpolate. destruct (convertible v); intros H; by simplify_eq. Qed.

Lemma interpolate_convertible v : convertible v = true -> interpolate v = Normal v.
Proof. unfold interpolate. by intros ->. Qed.

Lemma currency_Normal v a : currency host v = Normal a -> a = v.
Proof.
  unfold currency, formatAnalyticsCurrency. destruct (host_i18n host); [congruence|].
  destruct (ToNumber _ _); cbn; congruence.
Qed.

Lemma currency_returns v : (exists a, currency host v = Normal a) -> currency host v = Normal v.
Proof. intros [a H]. by rewrite <- (currency_Normal v a H) at 2. Qed.




(** Every exception of the conversions is a TypeError. *)
Lemma ToNumber_throws parse v e : ToNumber parse v = Throw e -> e = not_convertible.
Proof.
  destruct v as [| |[]|m|s|l|props|name]; try done; cbn [ToNumber].
  - destruct (convertible (JArray l)); congruence.
  - destruct (negb (convertible (JObject props))); [congruence|].
    by destruct (own_function "toString" props || own_function "valueOf" props).
Qed.

Lemma currency_throws v e : currency host v = Throw e -> e = not_convertible.
Proof.
  unfold currency, formatAnalyticsCurrency. destruct (host_i18n host); [done|].
  destruct (ToNumber _ _) eqn:E; cbn; [done|]. intros ?; simplify_eq.
  by eapply ToNumber_throws.
Qed.

Lemma interpolate_throws v e : interpolate v = Throw e -> e = not_convertible.
Proof. unfold interpolate. destruct (convertible v); congruence. Qed.

Lemma Get_throws v key e : Get v key = Throw e -> exists message, e = TypeError message.
Proof. destruct v; cbn; intros H; simplify_eq; eauto. Qed.

Lemma capitalized_throws v e :
  capitalized host v = Throw e -> exists message, e = TypeError message.
Proof. destruct v; cbn; intros H; simplify_eq; eauto. Qed.








End Renderers.

(** ** The data access layer *)

Section DataAccess.

Lemma slot_set_slot v x s : slot v (set_slot v x s) = x.
Proof. by destruct v. Qed.

Lemma slot_set_slot_ne v v' x s : v' ≠ v -> slot v' (set_slot v x s) = slot v' s.
Proof. by destruct v, v'. Qed.

Lemma apiFetch_begin_spec endpoint w :
  apiFetch_begin endpoint w =
  if opt_truthy (authToken w)
  then (Normal tt,
        set_network (fun l => l ++ [ {| req_url := ANALYTICS_API_URL +:+ endpoint;
                                        req_headers :=
                                          [ ("Content-Type", "application/json");
                                            ("Authorization",
                                             "Bearer " +:+ default "" (authToken w)) ] |} ]) w)
  else (Throw AuthError,
        set_console (fun l => l ++ [("Error fetching " +:+ endpoint +:+ ":", AuthError)]) w).
Proof.
  unfold apiFetch_begin, try_catch, bind, gets, getAuthHeaders, apiFetch_catch, fetch,
    console_error, modify, ret, throw.
  cbn. destruct (opt_truthy (authToken w)) eqn:E; cbn; [|done]. by rewrite E.
Qed.

Lemma apiFetch_resume_spec endpoint r w :
  apiFetch_resume endpoint r w =
  match response_payload r with
  | Normal x => (Normal x, w)
  | Throw e =>
      (Throw e, set_console (fun l => l ++ [("Error fetching " +:+ endpoint +:+ ":", e)]) w)
  end.
Proof.
  unfold apiFetch_resume, response_payload, try_catch, apiFetch_catch.
  destruct r as [e|response]; [done|].
  destruct (ok response); cbn; [|done].
  unfold bind, liftC. destruct (json response) as [data|e]; cbn; [|done].
  by destruct (Get data "data").
Qed.

Lemma fetch_resume_spec v endpoint r w :
  fetch_resume v endpoint r w =
  match response_payload r with
  | Normal x => (Normal x, set_analyticsData (set_slot v x) w)
  | Throw e =>
      (Throw e, set_console (fun l => l ++ [("Error fetching " +:+ endpoint +:+ ":", e)]) w)
  end.
Proof.
  destruct v; cbn;
    unfold fetchSpendingTrends_resume, fetchCategoryBreakdown_resume,
      fetchInsights_resume, fetchPredictions_resume, fetchSpendingVelocity_resume,
      fetchForecast_resume, bind;
    rewrite apiFetch_resume_spec; by destruct (response_payload r).
Qed.

Lemma awaited_spec t r w :
  awaited t r w =
  match fetch_outcome t r with
  | Normal x => (Normal x, set_analyticsData (set_slot (task_view t) x) w)
  | Throw e =>
      (Throw e,
       match task_state t with
       | Awaiting =>
           set_console
             (fun l => l ++ [("Error fetching " +:+ task_endpoint t +:+ ":", e)]) w
       | Rejected _ => w
       end)
  end.
Proof.
  unfold awaited, fetch_outcome. destruct (task_state t); [|done].
  apply fetch_resume_spec.
Qed.

Lemma awaited_fst t r w : (awaited t r w).1 = fetch_outcome t r.
Proof. rewrite awaited_spec. by destruct (fetch_outcome t r). Qed.

End DataAccess.

(** ** One task *)

Section Tasks.

Context (host : Host).

Lemma task_resume_unfold t r :
  task_resume host t r =
  try_catch
    (bind (awaited t r) (fun payload => on_document (render host (task_view t) payload)))
    (fun error =>
       bind (console_error (error_label (task_view t)) error)
            (fun _ => showChartError (region (task_view t)) (error_message (task_view t)))).
Proof. unfold task_resume. by destruct (task_view t). Qed.

Lemma task_content_render t r payload (d : gmap string Html) h :
  fetch_outcome t r = Normal payload ->
  d !! region (task_view t) = Some h ->
  let res := render host (task_view t) payload d in
  match res.1 with
  | Normal _ => res.2 = <[region (task_view t) := task_content host t r]> d
  | Throw _ =>
      task_content host t r = [ErrorState (error_message (task_view t))] /\
      exists h', res.2 = <[region (task_view t) := h']> d
  end.
Proof.
  intros Hf Hd. unfold task_content. rewrite Hf.
  destruct (render_shape host (task_view t) payload) as (body & -> & Hok).
  rewrite (with_container_present _ _ d h Hd).
  rewrite (with_container_present _ _ _ [] (lookup_singleton_eq _ _)).
  destruct (Hok h []) as [Hc Hn]. cbn. rewrite <- Hc.
  destruct (body h).1 as [[]|e] eqn:E.
  - destruct (Hn eq_refl) as [-> _]. by rewrite lookup_insert_eq.
  - eauto.
Qed.

Lemma task_content_no_spinner t r : LoadingSpinner ∉ task_content host t r.
Proof.
  unfold task_content.
  destruct (fetch_outcome t r) as [payload|e]; [|not_in_list].
  destruct (render_shape host (task_view t) payload) as (body & -> & Hok).
  rewrite (with_container_present _ _ _ [] (lookup_singleton_eq _ _)).
  destruct (Hok [] []) as [_ Hn]. cbn.
  destruct (body []).1 as [[]|e] eqn:E; [|not_in_list].
  rewrite lookup_insert_eq. cbn. by apply Hn.
Qed.

(** What the second half of a task does to the world. *)
Lemma task_resume_spec t r w :
  let v := task_view t in
  let res := task_resume host t r w in
  res.1 = Normal tt /\
  document res.2 = put (region v) (task_content host t r) (document w) /\
  analyticsData res.2 =
    match fetch_outcome t r with
    | Normal payload => set_slot v payload (analyticsData w)
    | Throw _ => analyticsData w
    end /\
  pending res.2 = pending w /\
  isLoading res.2 = isLoading w /\
  network res.2 = network w /\
  authToken res.2 = authToken w /\
  currentPeriod res.2 = currentPeriod w /\
  currentMonths res.2 = currentMonths w.
Proof.
  intros v res. subst res. rewrite task_resume_unfold. fold v.
  unfold try_catch, bind, showChartError, on_document, console_error, modify, put.
  rewrite awaited_spec.
  destruct (fetch_outcome t r) as [payload|e] eqn:Hf; cbn.
  - destruct (document w !! region v) as [h|] eqn:Hd.
    + pose proof (task_content_render t r payload (document w) h Hf Hd) as H.
      fold v in H. cbn in H.
      destruct (render host v payload (document w)) as [[[]|e] d]; cbn in *.
      * by subst d.
      * destruct H as [-> [h' ->]].
        unfold with_container. rewrite lookup_insert_eq. cbn.
        by rewrite insert_insert_eq.
    + destruct (render_shape host v payload) as (body & -> & _).
      by rewrite (with_container_absent _ _ _ Hd).
  - unfold task_content. rewrite Hf. fold v.
    unfold with_container.
    destruct (task_state t); cbn; by destruct (document w !! region v).
Qed.

End Tasks.

(** ** Launching *)

Section Launching.

Lemma bind_normal {S A B} (m : ST S A) (k : A -> ST S B) s a s' :
  m s = (Normal a, s') -> bind m k s = k a s'.
Proof. intros H. unfold bind. by rewrite H. Qed.

Lemma launch_eq v batch endpoint w :
  launch v batch endpoint (apiFetch_begin endpoint) w =
  (Normal tt, launched v batch endpoint w).
Proof.
  unfold launch, launched, new_task. rewrite apiFetch_begin_spec.
  by destruct (opt_truthy (authToken w)).
Qed.

Lemma launched_fields v batch endpoint w :
  pending (launched v batch endpoint w) =
    pending w ++ [new_task v batch endpoint (authToken w)] /\
  document (launched v batch endpoint w) = document w /\
  analyticsData (launched v batch endpoint w) = analyticsData w /\
  isLoading (launched v batch endpoint w) = isLoading w /\
  authToken (launched v batch endpoint w) = authToken w.
Proof.
  unfold launched. rewrite apiFetch_begin_spec.
  by destruct (opt_truthy (authToken w)).
Qed.

Lemma pending_launched v b e w :
  pending (launched v b e w) = pending w ++ [new_task v b e (authToken w)].
Proof. apply launched_fields. Qed.

Lemma document_launched v b e w : document (launched v b e w) = document w.
Proof. apply launched_fields. Qed.

Lemma analyticsData_launched v b e w :
  analyticsData (launched v b e w) = analyticsData w.
Proof. apply launched_fields. Qed.

Lemma isLoading_launched v b e w : isLoading (launched v b e w) = isLoading w.
Proof. apply launched_fields. Qed.

Lemma authToken_launched v b e w : authToken (launched v b e w) = authToken w.
Proof. apply launched_fields. Qed.

Lemma loadTrendsData_begin_eq batch w :
  loadTrendsData_begin batch w =
  (Normal tt,
   launched Trends batch (spendingTrends_endpoint (currentPeriod w) (currentMonths w)) w).
Proof. apply launch_eq. Qed.

Lemma loadAllAnalytics_busy w :
  isLoading w = true -> loadAllAnalytics w = (Normal tt, w).
Proof. intros H. unfold loadAllAnalytics, bind, gets. by rewrite H. Qed.

Lemma loadAllAnalytics_idle_eq w :
  isLoading w = false -> loadAllAnalytics w = (Normal tt, refreshed w).
Proof.
  intros Hl. unfold loadAllAnalytics.
  rewrite (bind_normal _ _ w false w) by (unfold gets; by rewrite Hl).
  rewrite (bind_normal _ _ w tt (set_isLoading true w)) by done.
  rewrite (bind_normal _ _ _ tt (showLoadingState (set_isLoading true w)).2) by done.
  erewrite bind_normal by apply loadTrendsData_begin_eq.
  erewrite bind_normal by apply launch_eq.
  erewrite bind_normal by apply launch_eq.
  erewrite bind_normal by apply launch_eq.
  erewrite bind_normal by apply launch_eq.
  unfold loadForecastData_begin, fetchForecast_begin. rewrite launch_eq.
  done.
Qed.

Lemma refreshed_fields w :
  isLoading (refreshed w) = true /\
  pending (refreshed w) = pending w ++ refresh_tasks w /\
  analyticsData (refreshed w) = analyticsData w /\
  authToken (refreshed w) = authToken w /\
  document (refreshed w) = document (showLoadingState w).2.
Proof.
  unfold refreshed. cbv zeta.
  rewrite !pending_launched, !document_launched, !analyticsData_launched,
    !isLoading_launched, !authToken_launched.
  rewrite <- !app_assoc. done.
Qed.

Lemma refresh_tasks_cover w v :
  exists t, t ∈ refresh_tasks w /\ task_view t = v /\ task_batch t = true.
Proof.
  unfold refresh_tasks. destruct v; eexists.
  - split; [apply list_elem_of_here|done].
  - split; [do 1 apply list_elem_of_further; apply list_elem_of_here|done].
  - split; [do 2 apply list_elem_of_further; apply list_elem_of_here|done].
  - split; [do 3 apply list_elem_of_further; apply list_elem_of_here|done].
  - split; [do 4 apply list_elem_of_further; apply list_elem_of_here|done].
  - split; [do 5 apply list_elem_of_further; apply list_elem_of_here|done].
Qed.

End Launching.

(** ** The controller as a state machine *)

Section Controller.

Context (host : Host).

Lemma settle_fields n r w t :
  pending w !! n = Some t ->
  let v := task_view t in
  let w' := settle host n r w in
  pending w' = delete n (pending w) /\
  document w' = put (region v) (task_content host t r) (document w) /\
  analyticsData w' =
    match fetch_outcome t r with
    | Normal payload => set_slot v payload (analyticsData w)
    | Throw _ => analyticsData w
    end /\
  isLoading w' =
    (if task_batch t && negb (existsb task_batch (delete n (pending w)))
     then false else isLoading w) /\
  network w' = network w /\
  authToken w' = authToken w.
Proof.
  intros Ht v w'. subst w'. unfold settle. rewrite Ht.
  destruct (task_resume_spec host t r (set_pending (delete n) w))
    as (_ & Hd & Ha & Hp & Hl & Hn & Hk & _).
  cbn in Hd, Ha, Hp, Hl, Hn, Hk. rewrite Hp.
  destruct (task_batch t && negb (existsb task_batch (delete n (pending w)))); cbn; done.
Qed.

Lemma settle_nothing n r w : pending w !! n = None -> settle host n r w = w.
Proof. intros H. unfold settle. by rewrite H. Qed.

Lemma existsb_delete_batch (l : list Task) n t :
  l !! n = Some t -> task_batch t = false ->
  existsb task_batch (delete n l) = existsb task_batch l.
Proof.
  revert n. induction l as [|x l IH]; intros [|n] Ht Hb; cbn in *; try done.
  - simplify_eq. by rewrite Hb.
  - f_equal. by apply IH.
Qed.

Lemma existsb_lookup_batch (l : list Task) n t :
  l !! n = Some t -> task_batch t = true -> existsb task_batch l = true.
Proof.
  intros Ht Hb. apply existsb_exists. exists t. split; [|done].
  apply list_elem_of_In. by eapply list_elem_of_lookup_2.
Qed.

Lemma elem_of_delete_other (l : list Task) n t t' :
  l !! n = Some t -> t' ∈ l -> task_view t' ≠ task_view t -> t' ∈ delete n l.
Proof.
  revert n. induction l as [|x l IH]; intros [|n] Ht Hin Hne; cbn in *; try done.
  - simplify_eq. apply elem_of_cons in Hin as [->|Hin]; done.
  - apply elem_of_cons in Hin as [->|Hin]; [left|right; eauto].
Qed.

Lemma fresh_page_Inv w : fresh_page w -> Inv w.
Proof.
  intros (Hl & Hp & Hs). split.
  - by rewrite Hl, Hp.
  - intros v h Hd Hin. by destruct (Hs v h Hd).
Qed.

Lemma step_Inv w ev : Inv w -> Inv (step host w ev).
Proof.
  intros [Hl Hs]. destruct ev as [|value|value|n r]; cbn [step].
  - destruct (isLoading w) eqn:E.
    + rewrite (loadAllAnalytics_busy w E). cbn [snd]. split; [congruence|done].
    + rewrite (loadAllAnalytics_idle_eq w E). cbn [snd].
      destruct (refreshed_fields w) as (H1 & H2 & _ & _ & _). split.
      * rewrite H1, H2, existsb_app. cbn. by rewrite orb_true_r.
      * intros v h _ _. rewrite H2.
        destruct (refresh_tasks_cover w v) as (t & Hin & Hv & Hb).
        exists t. split; [|done]. apply elem_of_app. by right.
  - rewrite loadTrendsData_begin_eq. cbn [snd]. unfold Inv.
    rewrite pending_launched, document_launched, isLoading_launched. cbn. split.
    + rewrite existsb_app. cbn. by rewrite !orb_false_r.
    + intros v h Hd Hin. destruct (Hs v h Hd Hin) as (t & ? & ? & ?).
      exists t. split; [|done]. apply elem_of_app. by left.
  - rewrite loadTrendsData_begin_eq. cbn [snd]. unfold Inv.
    rewrite pending_launched, document_launched, isLoading_launched. cbn. split.
    + rewrite existsb_app. cbn. by rewrite !orb_false_r.
    + intros v h Hd Hin. destruct (Hs v h Hd Hin) as (t & ? & ? & ?).
      exists t. split; [|done]. apply elem_of_app. by left.
  - destruct (pending w !! n) as [t|] eqn:Ht; [|by rewrite settle_nothing].
    destruct (settle_fields n r w t Ht) as (Hp & Hd & _ & Hi & _).
    cbn in Hp, Hd, Hi. split.
    + rewrite Hi, Hp. destruct (task_batch t) eqn:Hb; cbn.
      * destruct (existsb task_batch (delete n (pending w))) eqn:E; cbn; [|done].
        rewrite Hl. by eapply existsb_lookup_batch.
      * rewrite Hl. symmetry. by eapply existsb_delete_batch.
    + intros v h Hv Hin. rewrite Hd in Hv. rewrite Hp.
      destruct (decide (v = task_view t)) as [->|Hne].
      * rewrite put_lookup in Hv. destruct (document w !! region (task_view t)); [|done].
        cbn in Hv. simplify_eq. by destruct (task_content_no_spinner host t r).
      * rewrite put_lookup_ne in Hv by (intros Heq; by apply region_inj in Heq).
        destruct (Hs v h Hv Hin) as (t' & Hin' & Hv' & Hb').
        exists t'. split; [|done]. eapply elem_of_delete_other; eauto. congruence.
Qed.

Lemma run_Inv evs w : Inv w -> Inv (run host w evs).
Proof.
  revert w. induction evs as [|ev evs IH]; intros w H; cbn; [done|].
  apply IH. by apply step_Inv.
Qed.

Lemma Inv_no_batch w :
  Inv w -> existsb task_batch (pending w) = false ->
  isLoading w = false /\
  forall v h, document w !! region v = Some h -> LoadingSpinner ∉ h.
Proof.
  intros [Hl Hs] Hb. split; [congruence|].
  intros v h Hd Hin. destruct (Hs v h Hd Hin) as (t & Ht & _ & Htb).
  assert (existsb task_batch (pending w) = true); [|congruence].
  apply existsb_exists. exists t. split; [by apply list_elem_of_In|done].
Qed.

(** Settling at valid positions empties the pending list. *)
Lemma run_settles k sched w :
  valid_schedule k sched = true -> length (pending w) = k ->
  pending (run host w (settle_events sched)) = [].
Proof.
  revert k w.
  induction sched as [|[n r] sched IH]; intros [|k] w Hv Hlen; cbn in Hv; try done.
  - by apply nil_length_inv.
  - apply andb_true_iff in Hv as [Hn Hv]. apply Nat.leb_le in Hn.
    cbn [settle_events map run foldl fst snd step].
    destruct (lookup_lt_is_Some_2 (pending w) n) as [t Ht]; [lia|].
    apply (IH k); [done|].
    destruct (settle_fields n r w t Ht) as (-> & _).
    rewrite length_delete by eauto. lia.
Qed.

End Controller.

Lemma sample_page_fresh : fresh_page sample_page.
Proof.
  split; [done|]. split; [done|].
  intros v h. destruct v; vm_compute; intros H; simplify_eq; not_in_list.
Defined.

(** ** The checked properties *)

(** C1.  Isolation of a failed fetch.  Take any pending task [t], of any of
    the six views, and an answer [r] on which its fetch operation throws.
    When the task settles: its second half completes normally (nothing is
    rethrown); its own region, where the page has it, holds the error
    message of its view and every other element of the page is as before;
    the snapshot and the network log are unchanged; the other tasks are
    still pending.  And whatever task [t'] of another view settles
    afterwards, on whatever answer, it leaves in its region and in its slot
    exactly what it would have left had [t] not failed before it. *)
Theorem fetch_failure_is_isolated host w n t r e :
  pending w !! n = Some t ->
  (awaited t r w).1 = Throw e ->
  let v := task_view t in
  let w' := settle host n r w in
  (forall w0, (task_resume host t r w0).1 = Normal tt) /\
  document w' !! region v =
    (fun _ => [ErrorState (error_message v)]) <$> document w !! region v /\
  (forall id, id ≠ region v -> document w' !! id = document w !! id) /\
  analyticsData w' = analyticsData w /\
  network w' = network w /\
  pending w' = delete n (pending w) /\
  forall t' r',
    task_view t' ≠ v ->
    let a := (task_resume host t' r' w').2 in
    let b := (task_resume host t' r' w).2 in
    document a !! region (task_view t') = document b !! region (task_view t') /\
    slot (task_view t') (analyticsData a) = slot (task_view t') (analyticsData b).
Proof.
  intros Ht Hthrow v w'. rewrite awaited_fst in Hthrow.
  destruct (settle_fields host n r w t Ht) as (Hp & Hd & Ha & _ & Hn & _).
  fold v w' in Hp, Hd, Ha, Hn. rewrite Hthrow in Ha.
  assert (task_content host t r = [ErrorState (error_message v)]) as Hc.
  { unfold task_content. by rewrite Hthrow. }
  rewrite Hc in Hd.
  split; [intros w0; apply task_resume_spec|].
  split; [rewrite Hd; apply put_lookup|].
  split; [intros id Hid; rewrite Hd; by apply put_lookup_ne|].
  do 3 (split; [done|]).
  intros t' r' Hne a b.
  destruct (task_resume_spec host t' r' w') as (_ & Hda & Haa & _).
  destruct (task_resume_spec host t' r' w) as (_ & Hdb & Hab & _).
  fold a in Hda, Haa. fold b in Hdb, Hab.
  rewrite Hda, Hdb, Haa, Hab, !put_lookup, Hd, Ha. split; [|done].
  rewrite put_lookup_ne; [done|]. intros Heq. by apply region_inj in Heq.
Qed.

Lemma fetch_failure_is_isolated_witness :
  let w := step sample_host sample_page ClickRefresh in
  let r := NetworkFailure (HostError "Failed to fetch") in
  exists t,
    pending w !! 0 = Some t /\
    (awaited t r w).1 = Throw (HostError "Failed to fetch") /\
    document (settle sample_host 0 r w) !! "trends-chart" =
      Some [ErrorState "Failed to load spending trends"] /\
    document (settle sample_host 0 r w) !! "velocity-widget" = Some [LoadingSpinner].
Proof.
  intros w r.
  exists (new_task Trends true "/spending-trends?period=monthly&months=6" (Some "secret")).
  assert (pending w !! 0 =
          Some (new_task Trends true "/spending-trends?period=monthly&months=6"
                  (Some "secret"))) as Ht by reflexivity.
  assert ((awaited (new_task Trends true "/spending-trends?period=monthly&months=6"
                      (Some "secret")) r w).1 = Throw (HostError "Failed to fetch"))
    as Hr by reflexivity.
  destruct (fetch_failure_is_isolated sample_host w 0 _ r _ Ht Hr)
    as (_ & Hown & Hother & _).
  split; [exact Ht|]. split; [exact Hr|]. split.
  - etrans; [exact Hown|reflexivity].
  - etrans; [apply Hother; discriminate|reflexivity].
Defined.

(** C2.  Reentrancy guard.  A click on refresh while the controller is
    loading leaves the whole world as it is: the flag stays set, no region is
    rewritten, no request goes out and no task is launched. *)
Theorem refresh_while_loading_is_noop host w :
  isLoading w = true -> step host w ClickRefresh = w.
Proof. intros H. cbn [step]. by rewrite loadAllAnalytics_busy. Qed.

Lemma refresh_while_loading_is_noop_witness :
  let w := step sample_host sample_page ClickRefresh in
  isLoading w = true /\ step sample_host w ClickRefresh = w.
Proof.
  intros w. split; [reflexivity|].
  apply (refresh_while_loading_is_noop sample_host w). reflexivity.
Defined.

(** C3.  Return to idle.  Start from a page on which the controller was just
    constructed.  (1) After any sequence of events, once no task of a full
    refresh is pending the controller is idle, no region shows the spinner,
    and a click on refresh is accepted: the flag is set and the six tasks are
    launched.  (2) In particular after one full refresh whose six tasks
    settle in any order and on any answers, failed or not, nothing is
    pending, the controller is idle and no region shows the spinner. *)
Theorem refresh_returns_to_idle host w0 :
  fresh_page w0 ->
  (forall evs,
      let w := run host w0 evs in
      existsb task_batch (pending w) = false ->
      isLoading w = false /\
      (forall v h, document w !! region v = Some h -> LoadingSpinner ∉ h) /\
      isLoading (step host w ClickRefresh) = true /\
      pending (step host w ClickRefresh) = pending w ++ refresh_tasks w) /\
  (forall sched,
      valid_schedule 6 sched = true ->
      let w := run host w0 (ClickRefresh :: settle_events sched) in
      pending w = [] /\ isLoading w = false /\
      forall v h, document w !! region v = Some h -> LoadingSpinner ∉ h).
Proof.
  intros Hf. pose proof (fresh_page_Inv w0 Hf) as HI. split.
  - intros evs w Hb. subst w.
    destruct (Inv_no_batch _ (run_Inv host evs w0 HI) Hb) as [Hl Hs].
    split; [done|]. split; [done|]. cbn [step].
    rewrite (loadAllAnalytics_idle_eq _ Hl). cbn [snd].
    by destruct (refreshed_fields (run host w0 evs)) as (-> & -> & _).
  - intros sched Hv w. subst w.
    assert (pending (run host w0 (ClickRefresh :: settle_events sched)) = []) as Hp.
    { cbn [run foldl step]. apply (run_settles host 6 sched); [done|].
      destruct Hf as (Hl & Hp & _).
      rewrite (loadAllAnalytics_idle_eq _ Hl). cbn [snd].
      destruct (refreshed_fields w0) as (_ & -> & _). by rewrite Hp. }
    split; [done|]. apply Inv_no_batch; [by apply run_Inv|]. by rewrite Hp.
Qed.

Lemma refresh_returns_to_idle_witness :
  fresh_page sample_page /\
  valid_schedule 6 sample_schedule = true /\
  isLoading (run sample_host sample_page (ClickRefresh :: settle_events sample_schedule))
    = false.
Proof.
  split; [exact sample_page_fresh|]. split; [reflexivity|].
  apply (proj2 (refresh_returns_to_idle sample_host sample_page sample_page_fresh)
           sample_schedule eq_refl).
Defined.

(** C4.  The velocity renderer at two payloads that are not presentable.
    On the empty object it builds the widget, with undefined fields and a NaN
    progress, instead of the placeholder; on null it throws a TypeError and
    leaves the region as it was.  It never consults [isValidData]. *)
Theorem velocity_renderer_has_no_gate host :
  ToBoolean (isValidData (JObject [])) = false /\
  renderVelocityWidget host (JObject []) {[ "velocity-widget" := [LoadingSpinner] ]} =
    (Normal tt,
     {[ "velocity-widget" :=
          [VelocityWidget JUndefined JUndefined JUndefined JUndefined NaN JUndefined] ]}) /\
  ToBoolean (isValidData JNull) = false /\
  exists message,
    renderVelocityWidget host JNull {[ "velocity-widget" := [LoadingSpinner] ]} =
      (Throw (TypeError message), {[ "velocity-widget" := [LoadingSpinner] ]}).
Proof.
  split; [done|]. split.
  - unfold renderVelocityWidget.
    rewrite (with_container_present _ _ _ [LoadingSpinner] (lookup_singleton_eq _ _)).
    unfold currency, formatAnalyticsCurrency. destruct (host_i18n host);
      cbn; by rewrite insert_singleton_eq.
  - split; [done|]. eexists. unfold renderVelocityWidget.
    rewrite (with_container_present _ _ _ [LoadingSpinner] (lookup_singleton_eq _ _)).
    cbn. by rewrite insert_singleton_eq.
Qed.

(** C5.  Last good value.  For every view, when the second half of its fetch
    operation throws, the snapshot is unchanged; when it returns a payload,
    the slot of the view holds that payload and the five other slots are
    unchanged.  The first half of a fetch never writes the snapshot.  In
    terms of the answer: a success status with a JSON object that has a
    [data] key returns the value under that key and stores it in the slot of
    the view, leaving the five others; a rejected request, a status that is
    not a success, a body that does not parse and a body on which [.data]
    cannot be read make the operation throw and leave all six slots as they
    were; so does a fetch that threw before any request was made. *)
Theorem fetch_updates_only_its_slot :
  (forall v endpoint r w,
      let res := fetch_resume v endpoint r w in
      match res.1 with
      | Throw _ => analyticsData res.2 = analyticsData w
      | Normal payload =>
          slot v (analyticsData res.2) = payload /\
          forall v', v' ≠ v -> slot v' (analyticsData res.2) = slot v' (analyticsData w)
      end) /\
  (forall endpoint w, analyticsData (apiFetch_begin endpoint w).2 = analyticsData w) /\
  (forall v endpoint n text props x w,
      assoc "data" props = Some x ->
      let res := fetch_resume v endpoint (ok_response n text (JObject props)) w in
      res.1 = Normal x /\
      slot v (analyticsData res.2) = x /\
      forall v', v' ≠ v -> slot v' (analyticsData res.2) = slot v' (analyticsData w)) /\
  (forall v endpoint e w,
      let res := fetch_resume v endpoint (NetworkFailure e) w in
      res.1 = Throw e /\ analyticsData res.2 = analyticsData w) /\
  (forall v endpoint response w,
      ok response = false ->
      let res := fetch_resume v endpoint (Respond response) w in
      res.1 = Throw (Error ("API request failed: " +:+ status_text (status response)
                            +:+ " " +:+ statusText response)) /\
      analyticsData res.2 = analyticsData w) /\
  (forall v endpoint response e w,
      ok response = true ->
      json response = Throw e \/
      (exists body, json response = Normal body /\ Get body "data" = Throw e) ->
      let res := fetch_resume v endpoint (Respond response) w in
      res.1 = Throw e /\ analyticsData res.2 = analyticsData w) /\
  (forall t r e w,
      task_state t = Rejected e ->
      (awaited t r w).1 = Throw e /\
      analyticsData (awaited t r w).2 = analyticsData w).
Proof.
  split; [|split; [|split; [|split; [|split; [|split]]]]].
  - intros v endpoint r w. cbv zeta. rewrite fetch_resume_spec.
    destruct (response_payload r) as [payload|e]; cbn; [|done].
    split; [apply slot_set_slot|]. intros v' Hne. by apply slot_set_slot_ne.
  - intros endpoint w. rewrite apiFetch_begin_spec.
    by destruct (opt_truthy (authToken w)).
  - intros v endpoint n text props x w Hx. cbv zeta. rewrite fetch_resume_spec.
    cbn. unfold GetProp. rewrite Hx. cbn.
    split; [done|]. split; [apply slot_set_slot|].
    intros v' Hne. by apply slot_set_slot_ne.
  - intros v endpoint e w. cbv zeta. by rewrite fetch_resume_spec.
  - intros v endpoint response w Hok. cbv zeta. rewrite fetch_resume_spec.
    unfold response_payload. by rewrite Hok.
  - intros v endpoint response e w Hok Hbody. cbv zeta. rewrite fetch_resume_spec.
    unfold response_payload. rewrite Hok. cbn.
    destruct Hbody as [->|(body & -> & Hg)]; cbn; [done|]. by rewrite Hg.
  - intros t r e w Ht. unfold awaited. by rewrite Ht.
Qed.

Lemma fetch_updates_only_its_slot_witness :
  let good := JArray [JObject [("month", JString "Jan"); ("amount", JNumber (Num 100))]] in
  let down := {| ok := false; status := 503; statusText := "Service Unavailable";
                 json := Normal (JObject [("data", JArray [])]) |} in
  let w1 := (fetch_resume Trends "/spending-trends"
               (ok_response 200 "OK" (JObject [("data", good)])) sample_page).2 in
  assoc "data" [("data", good)] = Some good /\
  slot Trends (analyticsData w1) = good /\
  slot Insights (analyticsData w1) = JNull /\
  ok down = false /\
  (fetch_resume Trends "/spending-trends" (Respond down) w1).1 =
    Throw (Error "API request failed: 503 Service Unavailable") /\
  slot Trends (analyticsData (fetch_resume Trends "/spending-trends" (Respond down) w1).2) =
    good.
Proof.
  intros good down w1.
  destruct fetch_updates_only_its_slot as (_ & _ & Hgood & _ & Hdown & _).
  destruct (Hgood Trends "/spending-trends" 200%N "OK" [("data", good)] good sample_page
              eq_refl) as (_ & Hslot & Hothers).
  destruct (Hdown Trends "/spending-trends" down w1 eq_refl) as [Hthrow Hkeep].
  split; [reflexivity|]. split; [exact Hslot|].
  split; [etrans; [apply Hothers; discriminate|reflexivity]|].
  split; [reflexivity|]. split; [exact Hthrow|].
  etrans; [exact (f_equal (slot Trends) Hkeep)|exact Hslot].
Defined.

(** C6.  No token, no request.  When the stored token is null (or the empty
    string), [apiFetch], and so each of the six fetch operations, throws the
    missing-token error and the network log is unchanged; so does
    [fetchSpendingTrends('monthly', 6)]. *)
Theorem missing_token_rejects_without_request w :
  opt_truthy (authToken w) = false ->
  (forall endpoint,
      (apiFetch_begin endpoint w).1 = Throw AuthError /\
      network (apiFetch_begin endpoint w).2 = network w) /\
  (forall period months type startDate endDate op,
      op ∈ [ fetchSpendingTrends_begin period months;
             fetchCategoryBreakdown_begin type startDate endDate;
             fetchInsights_begin; fetchPredictions_begin;
             fetchSpendingVelocity_begin; fetchForecast_begin ] ->
      (op w).1 = Throw AuthError /\ network (op w).2 = network w) /\
  (fetchSpendingTrends_begin "monthly" (Some 6%Z) w).1 = Throw AuthError /\
  network (fetchSpendingTrends_begin "monthly" (Some 6%Z) w).2 = network w.
Proof.
  intros Htok.
  assert (forall endpoint,
             (apiFetch_begin endpoint w).1 = Throw AuthError /\
             network (apiFetch_begin endpoint w).2 = network w) as H.
  { intros endpoint. rewrite apiFetch_begin_spec, Htok. done. }
  split; [exact H|]. split; [|apply H].
  intros period months type startDate endDate op Hop.
  repeat (apply elem_of_cons in Hop as [->|Hop]; [apply H|]).
  by apply elem_of_nil in Hop.
Qed.

Lemma missing_token_rejects_without_request_witness :
  let w := new_page None sample_document in
  opt_truthy (authToken w) = false /\
  (fetchSpendingTrends_begin "monthly" (Some 6%Z) w).1 = Throw AuthError /\
  network (fetchSpendingTrends_begin "monthly" (Some 6%Z) w).2 = [].
Proof.
  intros w. split; [reflexivity|].
  apply (missing_token_rejects_without_request w eq_refl).
Defined.

(** C7.  Presentability.  [isValidData] is falsy on null and on undefined,
    where it returns the argument itself and not [false]; it is [false] on
    the empty array and on the empty object, and [true] on every one-element
    array and on every object with at least one key. *)
Theorem isValidData_presentability :
  (isValidData JNull = JNull /\ ToBoolean (isValidData JNull) = false) /\
  (isValidData JUndefined = JUndefined /\ ToBoolean (isValidData JUndefined) = false) /\
  isValidData (JArray []) = JBool false /\
  isValidData (JObject []) = JBool false /\
  (forall x, isValidData (JArray [x]) = JBool true) /\
  (forall k x props, isValidData (JObject ((k, x) :: props)) = JBool true).
Proof. repeat split. Qed.

(** C7 read with [false] as the result on all four empty inputs: on null the
    result is null, on undefined it is undefined. *)
Lemma isValidData_of_null_is_not_false :
  isValidData JNull ≠ JBool false /\ isValidData JUndefined ≠ JBool false.
Proof. split; discriminate. Qed.

(** C8.  The category lookups at the key [constructor], which is none of the
    seven categories: both give the function every object inherits under that
    name, not the default color and the default icon, and the pie chart drawn
    for a breakdown with that category carries it as slice color and as label
    icon. *)
Theorem inherited_key_defeats_category_default host :
  ("constructor" ∉ known_categories) /\
  categoryColor host (JString "constructor") = JHost "Object.prototype.constructor" /\
  categoryIcon host (JString "constructor") = JHost "Object.prototype.constructor" /\
  categoryColor host (JString "constructor") ≠ JString "#999" /\
  categoryIcon host (JString "constructor") ≠ JString "📋" /\
  renderCategoryChart sample_host sample_breakdown {[ "category-chart" := [] ]} =
    (Normal tt,
     {[ "category-chart" :=
          [ CategoryChartHeader (JNumber (Num 10));
            Canvas "category-pie-chart"
              (Some (PieChart
                       [(JHost "Object.prototype.constructor", "Constructor")]
                       [JNumber (Num 10)]
                       [JHost "Object.prototype.constructor"]
                       [JHost "Object.prototype.constructor"])) ] ]}).
Proof.
  split; [not_in_list|]. do 4 (split; [done|]).
  unfold renderCategoryChart.
  rewrite (with_container_present _ _ _ [] (lookup_singleton_eq _ _)).
  cbn. by rewrite insert_singleton_eq.
Qed.






(** ** Further properties *)

Section MoreDataAccess.

Lemma assoc_data_missing props :
  assoc "data" props = None -> GetProp props "data" = JUndefined.
Proof. intros H. unfold GetProp. by rewrite H. Qed.

End MoreDataAccess.

(** X1.  A response whose status is not a success makes [apiFetch] throw
    [Error('API request failed: <status> <statusText>')], whatever its body
    holds; the error is logged once and no slot of the snapshot changes. *)
Theorem http_error_becomes_transport_error endpoint response w :
  ok response = false ->
  let e := Error ("API request failed: " +:+ status_text (status response)
                  +:+ " " +:+ statusText response) in
  apiFetch_resume endpoint (Respond response) w =
    (Throw e, set_console (fun l => l ++ [("Error fetching " +:+ endpoint +:+ ":", e)]) w) /\
  forall v, analyticsData (fetch_resume v endpoint (Respond response) w).2 = analyticsData w.
Proof.
  intros Hok e. split.
  - rewrite apiFetch_resume_spec. unfold response_payload. by rewrite Hok.
  - intros v. rewrite fetch_resume_spec. unfold response_payload. by rewrite Hok.
Qed.

Lemma http_error_becomes_transport_error_witness :
  let response := {| ok := false; status := 503; statusText := "Service Unavailable";
                     json := Normal (JObject [("data", JArray [JNull])]) |} in
  ok response = false /\
  (apiFetch_resume "/insights" (Respond response) sample_page).1 =
    Throw (Error "API request failed: 503 Service Unavailable").
Proof.
  intros response. split; [reflexivity|].
  destruct (http_error_becomes_transport_error "/insights" response sample_page eq_refl)
    as [H _].
  by rewrite H.
Defined.

(** X3.  A successful answer whose JSON object has no [data] key resolves
    to undefined: the slot of the view becomes undefined, the five renderers
    with a gate show their placeholder, and the velocity task shows its error
    message. *)
Theorem envelope_without_data host t n text props w h :
  task_state t = Awaiting ->
  assoc "data" props = None ->
  document w !! region (task_view t) = Some h ->
  let w' := (task_resume host t (ok_response n text (JObject props)) w).2 in
  document w' !! region (task_view t) =
    Some (if decide (task_view t = Velocity)
          then [ErrorState (error_message Velocity)]
          else [NoData (no_data_message (task_view t))]) /\
  slot (task_view t) (analyticsData w') = JUndefined.
Proof.
  intros Hst Hprops Hd w'.
  assert (fetch_outcome t (ok_response n text (JObject props)) = Normal JUndefined) as Hf.
  { unfold fetch_outcome. rewrite Hst. cbn. by rewrite assoc_data_missing. }
  destruct (task_resume_spec host t (ok_response n text (JObject props)) w)
    as (_ & Hdoc & Hsnap & _).
  fold w' in Hdoc, Hsnap. rewrite Hf in Hsnap. split.
  - rewrite Hdoc, put_lookup, Hd. cbn. f_equal.
    unfold task_content. rewrite Hf.
    destruct (task_view t); vm_compute; reflexivity.
  - rewrite Hsnap. apply slot_set_slot.
Qed.

Lemma envelope_without_data_witness :
  let t := new_task Forecast true "/forecast" (Some "secret") in
  let w := step sample_host sample_page ClickRefresh in
  task_state t = Awaiting /\
  assoc "data" [("message", JString "none")] = None /\
  document w !! region (task_view t) = Some [LoadingSpinner] /\
  document (task_resume sample_host t
              (ok_response 200 "OK" (JObject [("message", JString "none")])) w).2
    !! "forecast-widget" = Some [NoData "No forecast data available"].
Proof.
  intros t w. split; [reflexivity|]. split; [reflexivity|]. split; [reflexivity|].
  apply (envelope_without_data sample_host t 200 "OK" [("message", JString "none")] w
           [LoadingSpinner]); reflexivity.
Defined.

(** X4.  With a non-empty stored token [apiFetch] makes exactly one
    request, to the base path followed by the endpoint, with the header
    [Authorization: Bearer <token>], and logs nothing. *)
Theorem request_carries_bearer_token endpoint token w :
  authToken w = Some token -> token ≠ "" ->
  apiFetch_begin endpoint w =
    (Normal tt, set_network (fun l => l ++ [request_for endpoint token]) w).
Proof.
  intros Ht Hne. rewrite apiFetch_begin_spec, Ht. cbn.
  destruct (String.eqb_spec token ""); [done|]. done.
Qed.

Lemma request_carries_bearer_token_witness :
  authToken sample_page = Some "secret" /\ "secret" ≠ "" /\
  network (apiFetch_begin "/velocity" sample_page).2 =
    [ {| req_url := "/api/analytics/velocity";
         req_headers := [ ("Content-Type", "application/json");
                          ("Authorization", "Bearer secret") ] |} ].
Proof.
  split; [reflexivity|]. split; [discriminate|].
  rewrite (request_carries_bearer_token "/velocity" "secret" sample_page eq_refl);
    [reflexivity|discriminate].
Defined.

Section MoreLaunching.

Lemma network_launched v b e w :
  network (launched v b e w) =
    network w ++
    (if opt_truthy (authToken w)
     then [request_for e (default "" (authToken w))] else []).
Proof.
  unfold launched. rewrite apiFetch_begin_spec.
  destruct (opt_truthy (authToken w)); cbn; [done|]. by rewrite app_nil_r.
Qed.

Lemma currentPeriod_launched v b e w : currentPeriod (launched v b e w) = currentPeriod w.
Proof.
  unfold launched. rewrite apiFetch_begin_spec. by destruct (opt_truthy (authToken w)).
Qed.

Lemma currentMonths_launched v b e w : currentMonths (launched v b e w) = currentMonths w.
Proof.
  unfold launched. rewrite apiFetch_begin_spec. by destruct (opt_truthy (authToken w)).
Qed.

Lemma network_refreshed w :
  network (refreshed w) =
    network w ++
    (if opt_truthy (authToken w)
     then map (fun e => request_for e (default "" (authToken w)))
            [ spendingTrends_endpoint (currentPeriod w) (currentMonths w);
              categoryBreakdown_endpoint "expense" None None;
              "/insights"; "/predictions"; "/velocity"; "/forecast" ]
     else []).
Proof.
  unfold refreshed. cbv zeta.
  rewrite !network_launched, !authToken_launched.
  change (authToken (showLoadingState (set_isLoading true w)).2) with (authToken w).
  change (network (showLoadingState (set_isLoading true w)).2) with (network w).
  destruct (opt_truthy (authToken w)); cbn [map]; rewrite <- !app_assoc; [done|].
  by rewrite !app_nil_r.
Qed.

Lemma opt_truthy_Some (x : option string) :
  opt_truthy x = true -> exists s, x = Some s /\ s ≠ "".
Proof.
  destruct x as [s|]; [|done]. cbn. intros H. exists s. split; [done|].
  intros ->. done.
Qed.

Lemma step_authToken host w ev : authToken (step host w ev) = authToken w.
Proof.
  destruct ev as [|value|value|n r]; cbn [step].
  - destruct (isLoading w) eqn:E.
    + by rewrite (loadAllAnalytics_busy w E).
    + rewrite (loadAllAnalytics_idle_eq w E). apply refreshed_fields.
  - rewrite loadTrendsData_begin_eq. cbn [snd]. by rewrite authToken_launched.
  - rewrite loadTrendsData_begin_eq. cbn [snd]. by rewrite authToken_launched.
  - destruct (pending w !! n) as [t|] eqn:Ht; [|by rewrite settle_nothing].
    apply (settle_fields host n r w t Ht).
Qed.

Lemma launched_authenticated v b e w :
  Forall (authenticated w) (network w) ->
  Forall (authenticated w) (network (launched v b e w)).
Proof.
  intros H. rewrite network_launched. apply Forall_app. split; [done|].
  destruct (opt_truthy (authToken w)) eqn:E; [|constructor].
  destruct (opt_truthy_Some _ E) as (s & Hs & Hne).
  constructor; [|constructor]. exists e, s. by rewrite Hs.
Qed.

Lemma authenticated_ext w w' req :
  authToken w' = authToken w -> authenticated w req -> authenticated w' req.
Proof. intros H (e & s & ? & ? & ?). exists e, s. by rewrite H. Qed.

Lemma step_authenticated host w ev :
  Forall (authenticated w) (network w) ->
  Forall (authenticated (step host w ev)) (network (step host w ev)).
Proof.
  intros H.
  eapply Forall_impl; [|intros req; apply authenticated_ext; by rewrite step_authToken].
  destruct ev as [|value|value|n r]; cbn [step].
  - destruct (isLoading w) eqn:E.
    + by rewrite (loadAllAnalytics_busy w E).
    + rewrite (loadAllAnalytics_idle_eq w E). cbn [snd]. rewrite network_refreshed.
      apply Forall_app. split; [done|].
      destruct (opt_truthy (authToken w)) eqn:Et; [|constructor].
      destruct (opt_truthy_Some _ Et) as (s & Hs & Hne).
      apply Forall_map, Forall_forall. intros e _. exists e, s. by rewrite Hs.
  - rewrite loadTrendsData_begin_eq. cbn [snd].
    by apply (launched_authenticated _ _ _ (set_currentPeriod value w)).
  - rewrite loadTrendsData_begin_eq. cbn [snd].
    by apply (launched_authenticated _ _ _ (set_currentMonths _ w)).
  - destruct (pending w !! n) as [t|] eqn:Ht; [|by rewrite settle_nothing].
    destruct (settle_fields host n r w t Ht) as (_ & _ & _ & _ & -> & _). done.
Qed.

Lemma step_network_prefix host w ev : network w `prefix_of` network (step host w ev).
Proof.
  destruct ev as [|value|value|n r]; cbn [step].
  - destruct (isLoading w) eqn:E.
    + by rewrite (loadAllAnalytics_busy w E).
    + rewrite (loadAllAnalytics_idle_eq w E). cbn [snd]. rewrite network_refreshed.
      by apply prefix_app_r.
  - rewrite loadTrendsData_begin_eq. cbn [snd]. rewrite network_launched.
    by apply prefix_app_r.
  - rewrite loadTrendsData_begin_eq. cbn [snd]. rewrite network_launched.
    by apply prefix_app_r.
  - destruct (pending w !! n) as [t|] eqn:Ht; [|by rewrite settle_nothing].
    destruct (settle_fields host n r w t Ht) as (_ & _ & _ & _ & -> & _). done.
Qed.

End MoreLaunching.

(** X5.  Over any sequence of events the stored token does not change, the
    network log only grows, and every request the dashboard makes carries the
    stored, non-empty token: no request ever goes out without credentials. *)
Theorem every_request_is_authenticated host w0 evs :
  Forall (authenticated w0) (network w0) ->
  let w := run host w0 evs in
  authToken w = authToken w0 /\
  network w0 `prefix_of` network w /\
  Forall (authenticated w0) (network w).
Proof.
  revert w0. induction evs as [|ev evs IH]; intros w0 H; [done|].
  change (run host w0 (ev :: evs)) with (run host (step host w0 ev) evs). cbv zeta.
  destruct (IH (step host w0 ev) (step_authenticated host w0 ev H)) as (Ht & Hp & Ha).
  split; [by rewrite Ht, step_authToken|].
  split; [etrans; [apply step_network_prefix|exact Hp]|].
  eapply Forall_impl; [exact Ha|]. intros req. apply authenticated_ext.
  by rewrite step_authToken.
Qed.

Lemma every_request_is_authenticated_witness :
  Forall (authenticated sample_page) (network sample_page) /\
  Forall (authenticated sample_page)
    (network (run sample_host sample_page
                [ClickRefresh; ChangePeriod "weekly"; Settle 0 (success JNull)])).
Proof.
  assert (Forall (authenticated sample_page) (network sample_page)) as H by constructor.
  split; [exact H|].
  apply (every_request_is_authenticated sample_host sample_page _ H).
Defined.

(** X6.  An accepted full refresh with a token makes exactly six requests,
    in the order trends, category breakdown, insights, predictions, velocity,
    forecast, the first with the current period and months. *)
Theorem full_refresh_requests_in_order host w token :
  isLoading w = false ->
  authToken w = Some token -> token ≠ "" ->
  network (step host w ClickRefresh) =
    network w ++
    map (fun e => request_for e token)
      [ spendingTrends_endpoint (currentPeriod w) (currentMonths w);
        "/category-breakdown?type=expense";
        "/insights"; "/predictions"; "/velocity"; "/forecast" ].
Proof.
  intros Hl Ht Hne. cbn [step]. rewrite (loadAllAnalytics_idle_eq w Hl). cbn [snd].
  rewrite network_refreshed, Ht. cbn [opt_truthy default].
  by destruct (String.eqb_spec token "").
Qed.

Lemma full_refresh_requests_in_order_witness :
  isLoading sample_page = false /\ authToken sample_page = Some "secret" /\
  "secret" ≠ "" /\
  map req_url (network (step sample_host sample_page ClickRefresh)) =
    [ "/api/analytics/spending-trends?period=monthly&months=6";
      "/api/analytics/category-breakdown?type=expense";
      "/api/analytics/insights"; "/api/analytics/predictions";
      "/api/analytics/velocity"; "/api/analytics/forecast" ].
Proof.
  split; [reflexivity|]. split; [reflexivity|]. split; [discriminate|].
  rewrite (full_refresh_requests_in_order sample_host sample_page "secret" eq_refl eq_refl);
    [reflexivity|discriminate].
Defined.

Section MoreRegions.

Lemma foldl_put_lookup (h : Html) ids (d : gmap string Html) id :
  foldl (fun d id => match d !! id with
                     | Some _ => <[id := h]> d
                     | None => d
                     end) d ids !! id =
  if bool_decide (id ∈ ids) then (fun _ => h) <$> d !! id else d !! id.
Proof.
  revert d. induction ids as [|i ids IH]; intros d; cbn [foldl]; [done|].
  rewrite IH. fold (put i h d).
  destruct (decide (id = i)) as [->|Hne].
  - rewrite put_lookup. rewrite (bool_decide_eq_true_2 (i ∈ i :: ids)) by left.
    case_bool_decide; [|done]. by destruct (d !! i).
  - rewrite put_lookup_ne by done.
    destruct (bool_decide_reflect (id ∈ ids)) as [Hin|Hin].
    + rewrite bool_decide_eq_true_2; [done|by right].
    + rewrite bool_decide_eq_false_2; [done|].
      intros [?|?]%elem_of_cons; done.
Qed.

End MoreRegions.

(** X7.  An accepted full refresh puts the spinner into each of the six
    regions the page has, creates none that is missing, and leaves every
    other element as it is. *)
Theorem refresh_shows_spinner_in_existing_regions host w id :
  isLoading w = false ->
  document (step host w ClickRefresh) !! id =
    if bool_decide (id ∈ map region all_views)
    then (fun _ => [LoadingSpinner]) <$> document w !! id
    else document w !! id.
Proof.
  intros Hl. cbn [step]. rewrite (loadAllAnalytics_idle_eq w Hl). cbn [snd].
  destruct (refreshed_fields w) as (_ & _ & _ & _ & ->).
  apply (foldl_put_lookup [LoadingSpinner]).
Qed.

Lemma refresh_shows_spinner_in_existing_regions_witness :
  let w := new_page (Some "secret")
             {[ "trends-chart" := [NoData "No trend data available"];
                "page-title" := [ErrorState "untouched"] ]} in
  isLoading w = false /\
  document (step sample_host w ClickRefresh) !! "trends-chart" = Some [LoadingSpinner] /\
  document (step sample_host w ClickRefresh) !! "page-title" = Some [ErrorState "untouched"] /\
  document (step sample_host w ClickRefresh) !! "velocity-widget" = None.
Proof.
  intros w. split; [reflexivity|].
  rewrite !(refresh_shows_spinner_in_existing_regions sample_host w _ eq_refl).
  repeat split.
Defined.

(** X8.  A change of the period or of the months is not held back by
    [isLoading]: it stores the new value, launches one more trends task that
    is not part of a full refresh, and touches neither the flag nor any
    region.  A months value that does not parse is sent as [months=NaN]. *)
Theorem selective_reload_skips_the_guard host w :
  (forall value,
      let w' := step host w (ChangePeriod value) in
      currentPeriod w' = value /\
      isLoading w' = isLoading w /\
      document w' = document w /\
      pending w' =
        pending w ++
        [new_task Trends false (spendingTrends_endpoint value (currentMonths w))
           (authToken w)]) /\
  (forall value,
      let w' := step host w (ChangeMonths value) in
      currentMonths w' = host_parseInt host value /\
      isLoading w' = isLoading w /\
      document w' = document w /\
      pending w' =
        pending w ++
        [new_task Trends false
           (spendingTrends_endpoint (currentPeriod w) (host_parseInt host value))
           (authToken w)]) /\
  (forall value,
      host_parseInt host value = None ->
      exists t,
        last (pending (step host w (ChangeMonths value))) = Some t /\
        task_endpoint t =
          "/spending-trends?period=" +:+ currentPeriod w +:+ "&months=NaN").
Proof.
  split; [|split].
  - intros value w'. subst w'. cbn [step]. rewrite loadTrendsData_begin_eq. cbn [snd].
    by rewrite currentPeriod_launched, isLoading_launched, document_launched,
      pending_launched.
  - intros value w'. subst w'. cbn [step]. rewrite loadTrendsData_begin_eq. cbn [snd].
    by rewrite currentMonths_launched, isLoading_launched, document_launched,
      pending_launched.
  - intros value Hp. cbn [step]. rewrite loadTrendsData_begin_eq. cbn [snd].
    rewrite pending_launched, last_snoc. eexists. split; [done|].
    cbn. by rewrite Hp.
Qed.

(** X9.  Two tasks of the same view: after both have settled the page is as
    if only the later one had, whatever the earlier one wrote. *)
Theorem last_settle_wins host t1 t2 r1 r2 w :
  task_view t1 = task_view t2 ->
  document (task_resume host t2 r2 (task_resume host t1 r1 w).2).2 =
  document (task_resume host t2 r2 w).2.
Proof.
  intros Hv.
  destruct (task_resume_spec host t2 r2 (task_resume host t1 r1 w).2) as (_ & -> & _).
  destruct (task_resume_spec host t2 r2 w) as (_ & -> & _).
  destruct (task_resume_spec host t1 r1 w) as (_ & -> & _).
  rewrite Hv. unfold put.
  destruct (document w !! region (task_view t2)) as [h|] eqn:E.
  - rewrite lookup_insert_eq. by rewrite insert_insert_eq.
  - by rewrite E.
Qed.

Lemma last_settle_wins_witness :
  let w := step sample_host sample_page ClickRefresh in
  let t1 := new_task Trends true "/spending-trends?period=monthly&months=6" (Some "secret") in
  let t2 := new_task Trends false "/spending-trends?period=weekly&months=6" (Some "secret") in
  task_view t1 = task_view t2 /\
  document (task_resume sample_host t2 (NetworkFailure (HostError "offline"))
              (task_resume sample_host t1 (success (JArray [])) w).2).2
    !! "trends-chart" = Some [ErrorState "Failed to load spending trends"].
Proof.
  intros w t1 t2. split; [reflexivity|].
  rewrite (last_settle_wins sample_host t1 t2 _ _ w eq_refl). reflexivity.
Defined.

Section MoreRenderers.

Context (host : Host).

Lemma render_idem_shape v payload :
  exists body, render host v payload = with_container (region v) body /\ body_idem body.
Proof.
  destruct v; eexists; (split; [reflexivity|]); unfold body_idem; intros h;
    unfold bind, liftC, set_innerHTML, appendChild, modify, Chart_new; cbn;
    repeat (case_match; cbn; try done); simplify_eq; done.
Qed.

End MoreRenderers.

(** X10.  Every renderer, run again with the same payload on the document
    it left, completes the same way and leaves the same document. *)
Theorem rendering_twice_is_rendering_once host v payload (d : gmap string Html) :
  render host v payload (render host v payload d).2 = render host v payload d.
Proof.
  destruct (render_idem_shape host v payload) as (body & -> & Hid).
  destruct (d !! region v) as [h|] eqn:E.
  - rewrite (with_container_present _ _ d h E). cbn [snd].
    rewrite (with_container_present _ _ _ (body h).2 (lookup_insert_eq _ _ _)).
    by rewrite Hid, insert_insert_eq.
  - rewrite (with_container_absent _ _ d E). cbn [snd].
    by rewrite (with_container_absent _ _ d E).
Qed.

(** X11.  A renderer whose region is missing returns without doing anything
    and without throwing, for every payload; and a renderer never changes the
    region of another view. *)
Theorem renderers_keep_to_their_region host v payload (d : gmap string Html) :
  (d !! region v = None -> render host v payload d = (Normal tt, d)) /\
  (forall v', v' ≠ v -> (render host v payload d).2 !! region v' = d !! region v').
Proof.
  destruct (render_shape host v payload) as (body & Hr & _). split.
  - intros E. rewrite Hr. by apply with_container_absent.
  - intros v' Hne. apply render_frame. intros Heq. by apply region_inj in Heq.
Qed.

Section MoreLists.

Lemma mapC_objects {B} (f : JsVal -> Completion B) (g : list (string * JsVal) -> B) entries :
  (forall props, f (JObject props) = Normal (g props)) ->
  mapC f (map JObject entries) = Normal (map g entries).
Proof.
  intros Hf. induction entries as [|props entries IH]; cbn; [done|].
  by rewrite Hf, IH.
Qed.

Lemma mapC_points key (g : JsVal * JsVal -> JsVal) points :
  (forall p, GetProp [("month", p.1); ("amount", p.2)] key = g p) ->
  mapC (fun trend => Get trend key) (map trend_point points) = Normal (map g points).
Proof.
  intros Hg. induction points as [|p ps IH]; [done|].
  cbn [map mapC]. unfold trend_point at 1. cbn [Get]. rewrite Hg, IH. done.
Qed.

Lemma mapC_throws {B} (f : JsVal -> Completion B) l :
  (exists x, x ∈ l /\ exists e, f x = Throw e) ->
  exists x e, x ∈ l /\ f x = Throw e /\ mapC f l = Throw e.
Proof.
  induction l as [|y l IH]; intros (x & Hin & e & Hx).
  - by apply elem_of_nil in Hin.
  - cbn. destruct (f y) as [b|e'] eqn:Ey.
    + apply elem_of_cons in Hin as [->|Hin]; [congruence|].
      destruct IH as (x' & e'' & Hin' & Hx' & ->); [eauto|].
      exists x', e''. cbn. split; [by right|done].
    + exists y, e'. split; [by left|done].
Qed.

Lemma formatPercentage_throws parse v e :
  formatPercentage parse v = Throw e -> e = not_convertible.
Proof.
  unfold formatPercentage. destruct (ToNumber _ _) eqn:E; cbn; [done|].
  intros ?; simplify_eq. by eapply ToNumber_throws.
Qed.

Lemma prediction_item_throws_TypeError host x e :
  prediction_item host x = Throw e -> exists message, e = TypeError message.
Proof.
  unfold prediction_item. intros H.
  destruct (Get x "category") as [category|e1] eqn:E1; cbn [bindC] in H;
    [|simplify_eq; by eapply Get_throws].
  destruct (capitalized host category) as [name|e2] eqn:E2; cbn [bindC] in H;
    [|simplify_eq; by eapply capitalized_throws].
  destruct (Get x "confidence") as [confidence|e3] eqn:E3; cbn [bindC] in H;
    [|simplify_eq; by eapply Get_throws].
  destruct (formatPercentage (host_to_number host) confidence) as [c|e4] eqn:E4;
    cbn [bindC] in H;
    [|simplify_eq; apply formatPercentage_throws in E4 as ->; by eexists].
  destruct (Get x "predictedAmount") as [amount|e5] eqn:E5; cbn [bindC] in H;
    [|simplify_eq; by eapply Get_throws].
  destruct (currency host amount) as [a|e6] eqn:E6; cbn [bindC] in H; [done|].
  simplify_eq. apply currency_throws in E6 as ->. by eexists.
Qed.

Lemma insight_item_converts props :
  insight_converts props = true -> insight_item (JObject props) = Normal (insight_of props).
Proof.
  unfold insight_converts, insight_item, insight_of. cbn [Get bindC].
  intros [[Ht Hd]%andb_true_iff Hs]%andb_true_iff.
  rewrite (interpolate_convertible _ Ht), (interpolate_convertible _ Hd). cbn [bindC].
  destruct (ToBoolean (GetProp props "suggestion")); [|done].
  cbn in Hs. by rewrite (interpolate_convertible _ Hs).
Qed.

Lemma insight_item_fails props :
  insight_converts props = false -> insight_item (JObject props) = Throw not_convertible.
Proof.
  unfold insight_converts, insight_item, interpolate. cbn [Get bindC].
  destruct (convertible (GetProp props "title")); [|done].
  destruct (convertible (GetProp props "description")); [|done]. cbn.
  destruct (ToBoolean (GetProp props "suggestion")); [|done]. cbn.
  by intros ->.
Qed.

Lemma insight_item_throws_TypeError x e :
  insight_item x = Throw e -> exists message, e = TypeError message.
Proof.
  unfold insight_item. intros H.
  destruct (Get x "title") as [title|e1] eqn:E1; cbn [bindC] in H;
    [|simplify_eq; by eapply Get_throws].
  destruct (interpolate title) as [t|e2] eqn:E2; cbn [bindC] in H;
    [|simplify_eq; apply interpolate_throws in E2 as ->; by eexists].
  destruct (Get x "description") as [description|e3] eqn:E3; cbn [bindC] in H;
    [|simplify_eq; by eapply Get_throws].
  destruct (interpolate description) as [d|e4] eqn:E4; cbn [bindC] in H;
    [|simplify_eq; apply interpolate_throws in E4 as ->; by eexists].
  destruct (Get x "suggestion") as [suggestion|e5] eqn:E5; cbn [bindC] in H;
    [|simplify_eq; by eapply Get_throws].
  destruct (ToBoolean suggestion); [|done].
  destruct (interpolate suggestion) as [g|e6] eqn:E6; cbn [bindC] in H; [done|].
  simplify_eq. apply interpolate_throws in E6 as ->. by eexists.
Qed.

End MoreLists.

(** X12.  For a non-empty list of points the trends renderer draws one line
    chart whose labels are the months and whose data are the amounts, in the
    order of the payload. *)
Theorem trends_chart_plots_points_in_order host points (d : gmap string Html) h :
  points ≠ [] ->
  d !! "trends-chart" = Some h ->
  host_chart host (LineChart (map fst points) (map snd points)) = None ->
  renderTrendsChart host (JArray (map trend_point points)) d =
    (Normal tt,
     <["trends-chart" :=
         [Canvas "trends-line-chart"
            (Some (LineChart (map fst points) (map snd points)))]]> d).
Proof.
  intros Hne Hd Hc. unfold renderTrendsChart.
  rewrite (with_container_present _ _ d h Hd).
  assert (ToBoolean (isValidData (JArray (map trend_point points))) = true) as ->.
  { destruct points; done. }
  cbn. unfold bind, liftC, set_innerHTML, appendChild, modify, Chart_new. cbn.
  rewrite (mapC_points "month" fst) by done.
  rewrite (mapC_points "amount" snd) by done.
  by rewrite Hc.
Qed.

Lemma trends_chart_plots_points_in_order_witness :
  let points := [ (JString "Jan", JNumber (Num 100)); (JString "Feb", JNumber (Num 150)) ] in
  points ≠ [] /\
  sample_document !! "trends-chart" = Some [] /\
  host_chart sample_host (LineChart (map fst points) (map snd points)) = None /\
  (renderTrendsChart sample_host (JArray (map trend_point points)) sample_document).2
    !! "trends-chart" =
    Some [Canvas "trends-line-chart"
            (Some (LineChart [JString "Jan"; JString "Feb"]
                     [JNumber (Num 100); JNumber (Num 150)]))].
Proof.
  intros points. split; [discriminate|]. split; [reflexivity|]. split; [reflexivity|].
  rewrite (trends_chart_plots_points_in_order sample_host points sample_document []);
    [|discriminate|reflexivity|reflexivity].
  cbn [snd]. by rewrite lookup_insert_eq.
Defined.

(** X14.  For a non-empty list of objects whose texts convert, the insights
    renderer lists one entry per object, in order, with its title and
    description, and with its suggestion only when that is truthy.  When the
    text of one entry does not convert, it throws a TypeError and writes
    nothing. *)
Theorem insights_widget_lists_entries_in_order entries (d : gmap string Html) h :
  entries ≠ [] ->
  d !! "insights-widget" = Some h ->
  (forallb insight_converts entries = true ->
   renderInsightsWidget (JArray (map JObject entries)) d =
     (Normal tt, <["insights-widget" := [InsightsWidget (map insight_of entries)]]> d)) /\
  (forallb insight_converts entries = false ->
   exists message,
     renderInsightsWidget (JArray (map JObject entries)) d = (Throw (TypeError message), d)) /\
  renderInsightsWidget
    (JArray [JObject [("title", JString "Dining"); ("description", unprintable)]]) d =
    (Throw not_convertible, d).
Proof.
  intros Hne Hd.
  assert (ToBoolean (isValidData (JArray (map JObject entries))) = true) as Hgate.
  { destruct entries; done. }
  unfold renderInsightsWidget. rewrite !(with_container_present _ _ d h Hd), Hgate.
  cbn [negb]. unfold bind, liftC, set_innerHTML, modify. cbn [Array_map].
  split; [|split; [|cbn; by rewrite insert_id]].
  - intros Hall.
    assert (mapC insight_item (map JObject entries) = Normal (map insight_of entries)) as ->.
    { clear Hne Hgate. induction entries as [|props entries IH]; [done|].
      cbn in Hall. apply andb_true_iff in Hall as [Hp Hall].
      cbn [map mapC]. by rewrite (insight_item_converts props Hp), (IH Hall). }
    done.
  - intros Hsome.
    destruct (mapC_throws insight_item (map JObject entries)) as (x & e & _ & Hx & ->).
    { clear Hne Hgate. induction entries as [|props entries IH]; [done|].
      cbn in Hsome. apply andb_false_iff in Hsome as [Hp|Hrest].
      - exists (JObject props). split; [left|]. eexists. by apply insight_item_fails.
      - destruct (IH Hrest) as (x & Hin & Hx). exists x. split; [by right|done]. }
    destruct (insight_item_throws_TypeError x e Hx) as [message ->].
    exists message. cbn. by rewrite insert_id.
Qed.

Lemma insights_widget_lists_entries_in_order_witness :
  let entries := [ [("title", JString "Dining"); ("description", JString "Up 20%");
                    ("suggestion", JString "")];
                   [("title", JString "Transport"); ("description", JString "Stable");
                    ("suggestion", JString "Keep it up")] ] in
  entries ≠ [] /\
  sample_document !! "insights-widget" = Some [] /\
  forallb insight_converts entries = true /\
  (renderInsightsWidget (JArray (map JObject entries)) sample_document).2
    !! "insights-widget" =
    Some [InsightsWidget
            [ {| insight_title := JString "Dining"; insight_description := JString "Up 20%";
                 insight_suggestion := None |};
              {| insight_title := JString "Transport";
                 insight_description := JString "Stable";
                 insight_suggestion := Some (JString "Keep it up") |} ]].
Proof.
  intros entries. split; [discriminate|]. split; [reflexivity|]. split; [reflexivity|].
  rewrite (proj1 (insights_widget_lists_entries_in_order entries sample_document []
                    ltac:(discriminate) eq_refl) eq_refl).
  cbn [snd]. by rewrite lookup_insert_eq.
Defined.

(** X15.  One prediction whose category is not a string makes the
    predictions renderer throw a TypeError and leave the document exactly as
    it was: none of the other predictions is shown. *)
Theorem one_bad_prediction_fails_the_widget host before props after
  (d : gmap string Html) h :
  (forall s, GetProp props "category" ≠ JString s) ->
  d !! "predictions-widget" = Some h ->
  exists message,
    renderPredictionsWidget host (JArray (before ++ JObject props :: after)) d =
      (Throw (TypeError message), d).
Proof.
  intros Hc Hd. unfold renderPredictionsWidget.
  rewrite (with_container_present _ _ d h Hd).
  assert (ToBoolean (isValidData (JArray (before ++ JObject props :: after))) = true) as ->.
  { destruct before; done. }
  destruct (mapC_throws (prediction_item host) (before ++ JObject props :: after))
    as (x & e & _ & Hx & Hm).
  { exists (JObject props). split; [apply elem_of_app; right; left|].
    unfold prediction_item. cbn.
    destruct (GetProp props "category") as [| | | |s| | |] eqn:E; cbn; eauto.
    by destruct (Hc s). }
  destruct (prediction_item_throws_TypeError host x e Hx) as [message ->].
  exists message. cbn. unfold bind, liftC. cbn. rewrite Hm. cbn.
  by rewrite insert_id.
Qed.

Lemma one_bad_prediction_fails_the_widget_witness :
  let good := JObject [("category", JString "food"); ("confidence", JNumber (Num 80));
                       ("predictedAmount", JNumber (Num 120))] in
  let bad := [("confidence", JNumber (Num 50)); ("predictedAmount", JNumber (Num 10))] in
  (forall s, GetProp bad "category" ≠ JString s) /\
  sample_document !! "predictions-widget" = Some [] /\
  exists message,
    renderPredictionsWidget sample_host (JArray ([good] ++ JObject bad :: [good]))
      sample_document =
      (Throw (TypeError message), sample_document).
Proof.
  intros good bad.
  assert (forall s, GetProp bad "category" ≠ JString s) as H by (intros s; discriminate).
  split; [exact H|]. split; [reflexivity|].
  apply (one_bad_prediction_fails_the_widget sample_host [good] bad [good]
           sample_document [] H).
  reflexivity.
Defined.



(** X17.  An object with at least one key passes [isValidData] but has no
    [map]: the insights renderer throws a TypeError without writing, and the
    task shows the error message of the widget, not the placeholder. *)
Theorem keyed_payload_passes_the_gate_and_fails host k x props (d : gmap string Html) h :
  d !! "insights-widget" = Some h ->
  ToBoolean (isValidData (JObject ((k, x) :: props))) = true /\
  (exists message,
      renderInsightsWidget (JObject ((k, x) :: props)) d = (Throw (TypeError message), d)) /\
  (forall t r w,
      task_view t = Insights ->
      (awaited t r w).1 = Normal (JObject ((k, x) :: props)) ->
      document w !! "insights-widget" = Some h ->
      document (task_resume host t r w).2 !! "insights-widget" =
        Some [ErrorState "Failed to load insights"]).
Proof.
  intros Hd. split; [done|]. split.
  - eexists. unfold renderInsightsWidget. rewrite (with_container_present _ _ d h Hd).
    cbn. by rewrite insert_id.
  - intros t r w Hv Ha Hw. rewrite awaited_fst in Ha.
    destruct (task_resume_spec host t r w) as (_ & -> & _).
    rewrite Hv. cbn [region]. rewrite put_lookup, Hw. cbn. f_equal.
    unfold task_content. rewrite Ha, Hv. vm_compute. reflexivity.
Qed.

(** X18.  When the fetch of a task returns a payload, the slot of its view
    holds that payload after the task has settled, also when the renderer
    threw and the region shows the error message; the other slots are
    unchanged. *)
Theorem slot_is_written_even_when_rendering_fails host t r w payload :
  (awaited t r w).1 = Normal payload ->
  slot (task_view t) (analyticsData (task_resume host t r w).2) = payload /\
  forall v', v' ≠ task_view t ->
    slot v' (analyticsData (task_resume host t r w).2) = slot v' (analyticsData w).
Proof.
  intros Ha. rewrite awaited_fst in Ha.
  destruct (task_resume_spec host t r w) as (_ & _ & -> & _). rewrite Ha.
  split; [apply slot_set_slot|]. intros v' Hne. by apply slot_set_slot_ne.
Qed.

Lemma slot_is_written_even_when_rendering_fails_witness :
  let t := new_task Trends true "/spending-trends?period=monthly&months=6" (Some "secret") in
  let r := success (JObject [("total", JNumber (Num 3))]) in
  let w := step sample_host sample_page ClickRefresh in
  (awaited t r w).1 = Normal (JObject [("total", JNumber (Num 3))]) /\
  document (task_resume sample_host t r w).2 !! "trends-chart" =
    Some [ErrorState "Failed to load spending trends"] /\
  slot (task_view t) (analyticsData (task_resume sample_host t r w).2) =
    JObject [("total", JNumber (Num 3))].
Proof.
  intros t r w.
  assert ((awaited t r w).1 = Normal (JObject [("total", JNumber (Num 3))])) as Ha
    by (vm_compute; reflexivity).
  split; [exact Ha|]. split; [vm_compute; reflexivity|].
  apply (slot_is_written_even_when_rendering_fails sample_host t r w _ Ha).
Defined.

(** X19.  What a settling task writes to the page does not depend on the
    snapshot: the renderers and the controller never read it. *)
Theorem display_never_reads_the_snapshot host t r w s :
  document (task_resume host t r (set_analyticsData (fun _ => s) w)).2 =
  document (task_resume host t r w).2.
Proof.
  destruct (task_resume_spec host t r (set_analyticsData (fun _ => s) w)) as (_ & -> & _).
  by destruct (task_resume_spec host t r w) as (_ & -> & _).
Qed.

(** X20.  [clearAnalyticsData] sets all six slots to null and cancels
    nothing: a task that was pending and then settles with a payload writes
    it into its slot, the other five staying null. *)
Theorem clear_does_not_cancel_pending_fetches host n r w t payload :
  pending w !! n = Some t ->
  (awaited t r w).1 = Normal payload ->
  let cleared := (clearAnalyticsData w).2 in
  (forall v, slot v (analyticsData cleared) = JNull) /\
  pending cleared = pending w /\
  slot (task_view t) (analyticsData (settle host n r cleared)) = payload /\
  forall v', v' ≠ task_view t -> slot v' (analyticsData (settle host n r cleared)) = JNull.
Proof.
  intros Ht Ha cleared. rewrite awaited_fst in Ha.
  split; [by intros []|]. split; [done|].
  destruct (settle_fields host n r cleared t Ht) as (_ & _ & -> & _).
  rewrite Ha. split; [apply slot_set_slot|].
  intros v' Hne. rewrite slot_set_slot_ne by done. by destruct v'.
Qed.

Lemma clear_does_not_cancel_pending_fetches_witness :
  let w := step sample_host sample_page ClickRefresh in
  let t := new_task Insights true "/insights" (Some "secret") in
  let r := success (JArray [JObject [("title", JString "Tip")]]) in
  pending w !! 2 = Some t /\
  (awaited t r w).1 = Normal (JArray [JObject [("title", JString "Tip")]]) /\
  slot (task_view t) (analyticsData (settle sample_host 2 r (clearAnalyticsData w).2)) =
    JArray [JObject [("title", JString "Tip")]].
Proof.
  intros w t r.
  assert (pending w !! 2 = Some t) as Ht by (vm_compute; reflexivity).
  assert ((awaited t r w).1 = Normal (JArray [JObject [("title", JString "Tip")]])) as Ha
    by (vm_compute; reflexivity).
  split; [exact Ht|]. split; [exact Ha|].
  pose proof (clear_does_not_cancel_pending_fetches sample_host 2 r w t _ Ht Ha) as H.
  cbv zeta in H. destruct H as (_ & _ & H & _). exact H.
Defined.

(** X21.  [isValidData] is truthy exactly on a non-empty array, an object
    with at least one key and a non-empty string; every number and every
    boolean is treated as no data. *)
Theorem isValidData_truthy_exactly_on_nonempty_collections data :
  ToBoolean (isValidData data) = true <->
  (exists x l, data = JArray (x :: l)) \/
  (exists k x props, data = JObject ((k, x) :: props)) \/
  (exists c s, data = JString (String c s)).
Proof.
  split.
  - destruct data as [| |b|n|s|l|props|name]; try (cbn; done).
    + by destruct b.
    + unfold isValidData.
      destruct (ToBoolean (JNumber n)) eqn:E; [done|]. by rewrite E.
    + destruct s as [|c s]; [done|]. intros _. right. right. eauto.
    + destruct l as [|x l]; [done|]. intros _. left. eauto.
    + destruct props as [|[k x] props]; [done|]. intros _. right. left. eauto.
  - intros [(x & l & ->)|[(k & x & props & ->)|(c & s & ->)]]; done.
Qed.

Section MoreTimers.

Context {Args : Type}.
Implicit Types (s : Timers Args) (ev : TimerEvent Args).

Lemma one_timer_start : one_timer (@no_timers Args).
Proof. split; [by left|constructor]. Qed.

Lemma executedFunction_live args s :
  one_timer s ->
  live (executedFunction args s) = [(next_id s, args)].
Proof.
  intros [[Hl|(id & a & Hl & Ht)] _]; unfold executedFunction; cbn; rewrite Hl.
  - by destruct (timeout s).
  - rewrite Ht. cbn. by case_decide.
Qed.

Lemma one_timer_step s ev : one_timer s -> one_timer (timer_step s ev).
Proof.
  intros H. destruct ev as [args|id]; cbn [timer_step].
  - split.
    + right. exists (next_id s), args. by rewrite executedFunction_live.
    + rewrite executedFunction_live by done. constructor; [cbn; lia|constructor].
  - destruct H as [[Hl|(id' & a & Hl & Ht)] Hf]; unfold fire; rewrite Hl.
    + cbn. split; [by left|by rewrite Hl].
    + cbn. case_decide as E; cbn.
      * subst id'. split; [left|]; cbn; rewrite Ht; cbn;
          (case_decide; [done|]); by cbn.
      * split; [right; eauto|done].
Qed.

Lemma one_timer_run evs s : one_timer s -> one_timer (timer_run s evs).
Proof.
  revert s. induction evs as [|ev evs IH]; intros s H; [done|].
  apply IH. by apply one_timer_step.
Qed.

Lemma calls_never_invoke burst s : invoked (timer_run s (calls burst)) = invoked s.
Proof.
  revert s. induction burst as [|a burst IH]; intros s; [done|].
  change (timer_run s (calls (a :: burst)))
    with (timer_run (executedFunction a s) (calls burst)).
  by rewrite IH.
Qed.

Lemma calls_snoc burst last s :
  timer_run s (calls (burst ++ [last])) =
  executedFunction last (timer_run s (calls burst)).
Proof. unfold calls, timer_run. by rewrite map_app, foldl_app. Qed.

End MoreTimers.

(** X22.  A debounced function, after any history: a burst of calls invokes
    [func] not at all; when the timer the burst left fires, [func] is invoked
    once, with the arguments of the last call; after that no timer is live. *)
Theorem debounce_runs_once_with_last_arguments {Args} (evs : list (TimerEvent Args))
  (burst : list Args) (last : Args) :
  let s := timer_run no_timers evs in
  let s' := timer_run s (calls (burst ++ [last])) in
  invoked s' = invoked s /\
  exists id,
    timeout s' = Some id /\
    invoked (fire id s') = invoked s ++ [last] /\
    live (fire id s') = [] /\
    forall id', fire id' (fire id s') = fire id s'.
Proof.
  intros s s'. subst s'. split; [apply calls_never_invoke|].
  rewrite calls_snoc.
  pose proof (one_timer_run (calls burst) s (one_timer_run evs _ one_timer_start)) as H.
  set (s1 := timer_run s (calls burst)) in *.
  exists (next_id s1). split; [done|].
  assert (fire (next_id s1) (executedFunction last s1) =
          {| timeout := Some (next_id s1); live := []; next_id := S (next_id s1);
             invoked := invoked s1 ++ [last] |}) as ->.
  { unfold fire. rewrite executedFunction_live by done. cbn.
    case_decide; [|done]. cbn. case_decide; [done|]. done. }
  cbn. split; [unfold s1; by rewrite calls_never_invoke|]. split; [done|].
  intros id'. by unfold fire.
Qed.

Section MoreServer.



End MoreServer.

(** X23.  The origin check allows a request exactly when it has no origin,
    or when its origin parses as an http or https URL, is listed, and is not
    a localhost URL in production. *)
Theorem cors_allows_only_listed_origins parse env origin :
  (origin_policy parse env origin).1 = Allow <->
  opt_truthy origin = false \/
  exists o url,
    origin = Some o /\ parse o = Some url /\
    protocol url ∈ ["http:"; "https:"] /\
    ~ (NODE_ENV env = Some "production" /\ hostname url = "localhost") /\
    o ∈ allowedOrigins env.
Proof.
  unfold origin_policy. destruct (opt_truthy origin) eqn:Eo; cbn [negb].
  - destruct origin as [o|]; [|done]. change (default "" (Some o)) with o.
    assert (forall P : Prop,
               (forall url, parse o = Some url ->
                            protocol url ∈ ["http:"; "https:"] ->
                            ~ (NODE_ENV env = Some "production" /\
                               hostname url = "localhost") ->
                            o ∈ allowedOrigins env -> P) ->
               true = false \/
               (exists o' url,
                   Some o = Some o' /\ parse o' = Some url /\
                   protocol url ∈ ["http:"; "https:"] /\
                   ~ (NODE_ENV env = Some "production" /\ hostname url = "localhost") /\
                   o' ∈ allowedOrigins env) -> P) as Hcase.
    { intros P HP [?|(o' & url & Ho & Hu & Hp & Hn & Ha)]; [done|].
      injection Ho as <-. eauto. }
    destruct (parse o) as [url|] eqn:Ep.
    2:{ cbn [fst]; split; [done|]. apply Hcase. intros url Hu. done. }
    destruct (decide (protocol url ∈ ["http:"; "https:"])) as [Hpr|Hpr];
      [rewrite (bool_decide_eq_true_2 _ Hpr)|rewrite (bool_decide_eq_false_2 _ Hpr)];
      cbn [negb].
    2:{ cbn [fst]; split; [done|]. apply Hcase. intros url' Hu. by injection Hu as <-. }
    destruct (decide (NODE_ENV env = Some "production" /\ hostname url = "localhost"))
      as [[Hn Hh]|Hn].
    { rewrite (bool_decide_eq_true_2 _ Hn), (bool_decide_eq_true_2 _ Hh). cbn [andb].
      cbn [fst]; split; [done|]. apply Hcase. intros url' Hu _ Hno. injection Hu as <-.
      by destruct Hno. }
    assert (bool_decide (NODE_ENV env = Some "production")
            && bool_decide (hostname url = "localhost") = false) as ->.
    { apply andb_false_iff.
      destruct (decide (NODE_ENV env = Some "production")) as [H1|H1];
        [|left; by apply bool_decide_eq_false_2].
      right. apply bool_decide_eq_false_2. intros H2. by destruct Hn. }
    destruct (decide (o ∈ allowedOrigins env)) as [Ha|Ha];
      [rewrite (bool_decide_eq_true_2 _ Ha)|rewrite (bool_decide_eq_false_2 _ Ha)].
    + cbn [fst]. split; [|done]. intros _. right. exists o, url. done.
    + cbn [fst]; split; [done|]. apply Hcase. intros url' _ _ _ Ha'. done.
  - split; [by left|done].
Qed.

(** X24.  In production an origin on localhost is rejected with
    'Localhost not allowed in production', though the two built-in localhost
    origins are on the list. *)
Theorem cors_rejects_localhost_in_production parse env o url :
  NODE_ENV env = Some "production" ->
  o ≠ "" ->
  parse o = Some url ->
  hostname url = "localhost" ->
  protocol url ∈ ["http:"; "https:"] ->
  origin_policy parse env (Some o) = (Deny "Localhost not allowed in production", None).
Proof.
  intros Hp Ho Hu Hh Hpr. unfold origin_policy. cbn [opt_truthy].
  change (default "" (Some o)) with o.
  destruct (String.eqb_spec o ""); [done|]. cbn [negb]. rewrite Hu.
  rewrite (bool_decide_eq_true_2 _ Hpr). cbn [negb].
  by rewrite (bool_decide_eq_true_2 _ Hp), (bool_decide_eq_true_2 _ Hh).
Qed.

Lemma cors_rejects_localhost_in_production_witness :
  let o := "http://localhost:3000" in
  let url := {| protocol := "http:"; hostname := "localhost" |} in
  NODE_ENV sample_env = Some "production" /\ o ≠ "" /\
  localhost_parser o = Some url /\ hostname url = "localhost" /\
  protocol url ∈ ["http:"; "https:"] /\
  o ∈ allowedOrigins sample_env /\
  origin_policy localhost_parser sample_env (Some o) =
    (Deny "Localhost not allowed in production", None).
Proof.
  intros o url.
  assert (protocol url ∈ ["http:"; "https:"]) as Hp by (apply list_elem_of_here).
  split; [reflexivity|]. split; [discriminate|]. split; [reflexivity|].
  split; [reflexivity|]. split; [exact Hp|]. split; [apply list_elem_of_here|].
  apply (cors_rejects_localhost_in_production localhost_parser sample_env o url);
    [reflexivity|discriminate|reflexivity|reflexivity|exact Hp].
Defined.


Section MoreBootstrap.

Context (host : Host).

Lemma page_run_cons p ev evs :
  page_run host p (ev :: evs) = page_run host (page_step host p ev) evs.
Proof. done. Qed.

Lemma not_ready_stays p evs :
  ready p = false ->
  loaded p + script_loads evs < 3 ->
  ready (page_run host p evs) = false /\
  network (world (page_run host p evs)) = network (world p) /\
  pending (world (page_run host p evs)) = pending (world p) /\
  analyticsData (world (page_run host p evs)) = analyticsData (world p).
Proof.
  revert p. induction evs as [|ev evs IH]; intros p Hr Hl; [done|].
  rewrite page_run_cons. destruct ev as [| |ev]; cbn [script_loads] in Hl.
  - cbn [page_step]. destruct (document (world p) !! "analytics-dashboard").
    + destruct (IH {| constructed := true; loaded := 0; ready := false;
                      world := construct (world p) |}) as (? & ? & ? & ?);
        [done|cbn; lia|]. done.
    + by apply IH.
  - cbn [page_step]. destruct (constructed p); [|apply IH; [done|lia]].
    destruct (Nat.eqb_spec (S (loaded p)) 3) as [E|E]; [lia|].
    destruct (IH {| constructed := true; loaded := S (loaded p); ready := ready p;
                    world := world p |}) as (? & ? & ? & ?); [done|cbn; lia|]. done.
  - cbn [page_step]. rewrite Hr. by apply IH.
Qed.

End MoreBootstrap.

(** X26.  Before the third script has loaded the dashboard is not ready and
    has made no request, launched no task and written no slot, whatever else
    happens; on a page with the dashboard container the third load binds the
    listeners and makes one full refresh. *)
Theorem nothing_is_fetched_before_the_scripts_load host w evs h :
  (script_loads evs < 3 ->
   ready (page_run host (opening w) evs) = false /\
   network (world (page_run host (opening w) evs)) = network w /\
   pending (world (page_run host (opening w) evs)) = pending w /\
   analyticsData (world (page_run host (opening w) evs)) = analyticsData w) /\
  (document w !! "analytics-dashboard" = Some h ->
   page_run host (opening w)
     [DOMContentLoaded; ScriptLoaded; ScriptLoaded; ScriptLoaded] =
   {| constructed := true; loaded := 3; ready := true;
      world := refreshed (construct w) |}).
Proof.
  split.
  - intros Hl. by apply (not_ready_stays host (opening w) evs).
  - intros Hd. unfold page_run. cbn [foldl].
    assert (page_step host (opening w) DOMContentLoaded =
            {| constructed := true; loaded := 0; ready := false;
               world := construct w |}) as ->.
    { unfold page_step, opening. cbn [world]. by rewrite Hd. }
    unfold page_step. cbn [constructed loaded ready world Nat.eqb].
    by rewrite (loadAllAnalytics_idle_eq (construct w)).
Qed.

Lemma nothing_is_fetched_before_the_scripts_load_witness :
  let w := new_page (Some "secret") (<["analytics-dashboard" := []]> sample_document) in
  let evs := [DOMContentLoaded; ScriptLoaded; Dashboard ClickRefresh; ScriptLoaded] in
  script_loads evs < 3 /\
  document w !! "analytics-dashboard" = Some [] /\
  network (world (page_run sample_host (opening w) evs)) = network w /\
  ready (page_run sample_host (opening w)
           [DOMContentLoaded; ScriptLoaded; ScriptLoaded; ScriptLoaded]) = true.
Proof.
  intros w evs.
  assert (script_loads evs < 3) as Hl by (cbn; lia).
  assert (document w !! "analytics-dashboard" = Some []) as Hd by (vm_compute; reflexivity).
  destruct (nothing_is_fetched_before_the_scripts_load sample_host w evs [])
    as [H1 H2].
  split; [exact Hl|]. split; [exact Hd|]. split.
  - apply (H1 Hl).
  - by rewrite (H2 Hd).
Defined.

(** X27.  On a page without the element [analytics-dashboard] no dashboard
    is constructed: no event changes anything. *)
Theorem page_without_dashboard_stays_inert host w evs :
  document w !! "analytics-dashboard" = None ->
  page_run host (opening w) evs = opening w.
Proof.
  intros Hd. induction evs as [|ev evs IH]; [done|].
  rewrite page_run_cons.
  assert (page_step host (opening w) ev = opening w) as ->; [|done].
  destruct ev; cbn; [by rewrite Hd|done|done].
Qed.

Lemma page_without_dashboard_stays_inert_witness :
  document sample_page !! "analytics-dashboard" = None /\
  page_run sample_host (opening sample_page)
    [DOMContentLoaded; ScriptLoaded; ScriptLoaded; ScriptLoaded; Dashboard ClickRefresh] =
  opening sample_page.
Proof.
  assert (document sample_page !! "analytics-dashboard" = None) as Hd
    by (vm_compute; reflexivity).
  split; [exact Hd|].
  apply (page_without_dashboard_stays_inert sample_host sample_page _ Hd).
Defined.

Lemma selective_reload_skips_the_guard_witness :
  let w := step sample_host sample_page ClickRefresh in
  isLoading w = true /\
  host_parseInt sample_host "six" = None /\
  exists t,
    last (pending (step sample_host w (ChangeMonths "six"))) = Some t /\
    task_endpoint t = "/spending-trends?period=monthly&months=NaN".
Proof.
  intros w. split; [reflexivity|]. split; [reflexivity|].
  apply (proj2 (proj2 (selective_reload_skips_the_guard sample_host w)) "six" eq_refl).
Defined.

Lemma keyed_payload_passes_the_gate_and_fails_witness :
  sample_overview !! "insights-widget" = Some [LoadingSpinner] /\
  exists message,
    renderInsightsWidget (JObject [("error", JString "quota")]) sample_overview =
      (Throw (TypeError message), sample_overview).
Proof.
  assert (sample_overview !! "insights-widget" = Some [LoadingSpinner]) as Hd
    by (vm_compute; reflexivity).
  split; [exact Hd|].
  apply (keyed_payload_passes_the_gate_and_fails sample_host "error" (JString "quota") []
           sample_overview [LoadingSpinner] Hd).
Defined.

Section MoreCategories.

Context (host : Host).

Lemma categoryIcon_convertible category :
  convertible (categoryIcon host (JString category)) = true.
Proof.
  unfold categoryIcon, js_or, GetProp, ObjectPrototype. cbn [ToPropertyKey].
  destruct (assoc category getCategoryIcons) as [v|] eqn:E.
  - cbn in E. repeat (case_match; simplify_eq; try done).
  - by case_bool_decide.
Qed.

Lemma mapC_categories {B} (f : JsVal -> Completion B) (g : string * JsVal -> B) cats :
  (forall c, f (category_entry c) = Normal (g c)) ->
  mapC f (map category_entry cats) = Normal (map g cats).
Proof.
  intros Hf. induction cats as [|c cats IH]; [done|].
  cbn [map mapC]. rewrite Hf, IH. done.
Qed.

End MoreCategories.

(** X13.  For a breakdown with a non-empty list of named categories and a
    grand total that converts, the renderer writes the header with the grand
    total and one pie chart with, per category and in order, the icon and the
    capitalized name as label, the total as value and the looked-up color as
    fill and as border. *)
Theorem category_chart_draws_one_slice_per_category host cats grandTotal
  (d : gmap string Html) h :
  cats ≠ [] ->
  d !! "category-chart" = Some h ->
  (exists a, currency host grandTotal = Normal a) ->
  let labels :=
    map (fun c => (categoryIcon host (JString c.1),
                   toUpperCase (host_toUpperCase host) (charAt0 c.1) +:+ slice1 c.1))
        cats in
  let colors := map (fun c => categoryColor host (JString c.1)) cats in
  host_chart host (PieChart labels (map snd cats) colors colors) = None ->
  renderCategoryChart host (breakdown_of cats grandTotal) d =
    (Normal tt,
     <["category-chart" :=
         [ CategoryChartHeader grandTotal;
           Canvas "category-pie-chart"
             (Some (PieChart labels (map snd cats) colors colors)) ]]> d).
Proof.
  intros Hne Hd Hg labels colors Hc. unfold renderCategoryChart.
  rewrite (with_container_present _ _ d h Hd).
  assert (ToBoolean (isValidData (breakdown_categories (breakdown_of cats grandTotal)))
          = true) as ->.
  { destruct cats; done. }
  cbn [negb]. unfold bind, liftC, set_innerHTML, appendChild, modify, Chart_new.
  cbn [breakdown_of Get GetProp assoc String.eqb Ascii.eqb Bool.eqb fst snd app Array_map].
  rewrite (currency_returns host grandTotal Hg).
  rewrite (mapC_categories (category_label host)
             (fun c => (categoryIcon host (JString c.1),
                        toUpperCase (host_toUpperCase host) (charAt0 c.1) +:+ slice1 c.1))).
  2:{ intros c. unfold category_label, category_entry. cbn [Get GetProp assoc String.eqb
        Ascii.eqb Bool.eqb fst bindC interpolate convertible].
      by rewrite (interpolate_convertible _ (categoryIcon_convertible host c.1)). }
  rewrite (mapC_categories (fun cat => Get cat "total") snd) by done.
  rewrite (mapC_categories (category_color host)
             (fun c => categoryColor host (JString c.1))) by done.
  fold labels colors. rewrite Hc. done.
Qed.

Lemma category_chart_draws_one_slice_per_category_witness :
  let cats := [("food", JNumber (Num 30)); ("travel", JNumber (Num 70))] in
  cats ≠ [] /\
  sample_document !! "category-chart" = Some [] /\
  currency sample_host (JNumber (Num 100)) = Normal (JNumber (Num 100)) /\
  (renderCategoryChart sample_host (breakdown_of cats (JNumber (Num 100))) sample_document).2
    !! "category-chart" =
    Some [ CategoryChartHeader (JNumber (Num 100));
           Canvas "category-pie-chart"
             (Some (PieChart [ (JString "🍽️", "Food"); (JString "📋", "Travel") ]
                      [JNumber (Num 30); JNumber (Num 70)]
                      [JString "#FF6B6B"; JString "#999"]
                      [JString "#FF6B6B"; JString "#999"])) ].
Proof.
  intros cats. split; [discriminate|]. split; [reflexivity|]. split; [reflexivity|].
  rewrite (category_chart_draws_one_slice_per_category sample_host cats (JNumber (Num 100))
             sample_document []);
    [|discriminate|reflexivity|by eexists|reflexivity].
  cbn [snd]. rewrite lookup_insert_eq. reflexivity.
Defined.

(** X2.  [apiFetch] after the answer: when it returns it has changed nothing;
    when it throws it has appended exactly the thrown error to the console
    and changed nothing else.  A rejected [fetch] and a body that does not
    parse are rethrown as they are, and a body that is [null] raises a
    TypeError at [data.data]. *)
Theorem apiFetch_logs_what_it_rethrows endpoint r w :
  let res := apiFetch_resume endpoint r w in
  match res.1 with
  | Normal _ => res.2 = w
  | Throw e =>
      console res.2 = console w ++ [("Error fetching " +:+ endpoint +:+ ":", e)] /\
      network res.2 = network w /\
      analyticsData res.2 = analyticsData w /\
      document res.2 = document w /\
      pending res.2 = pending w
  end /\
  (forall e, apiFetch_resume endpoint (NetworkFailure e) w =
             (Throw e, set_console
                         (fun l => l ++ [("Error fetching " +:+ endpoint +:+ ":", e)]) w)) /\
  (forall n text e,
      (apiFetch_resume endpoint
         (Respond {| ok := true; status := n; statusText := text; json := Throw e |}) w).1
      = Throw e) /\
  (forall n text,
      exists message,
        (apiFetch_resume endpoint (ok_response n text JNull) w).1
        = Throw (TypeError message)).
Proof.
  cbv zeta. rewrite apiFetch_resume_spec. split; [|split; [|split]].
  - by destruct (response_payload r).
  - intros e. by rewrite apiFetch_resume_spec.
  - intros n text e. by rewrite apiFetch_resume_spec.
  - intros n text. rewrite apiFetch_resume_spec. cbn. eauto.
Qed.
